(** * Nuxt4-pocketbase: the three client-side stores

    A shallow embedding of the Pinia stores of the application
    ([useUserStore], [useThemeStore], [useMyAuthStore]) together with the
    pieces of the JavaScript run time they rely on ([String], [padStart],
    [Date], [JSON.stringify], [localStorage], thrown values).

    Conventions.
    - A JavaScript string is a [string]; every character stands for one code
      unit.
    - A number that the stores handle is an integer or [NaN].
    - An asynchronous operation is given the way its remote call settles as
      an argument ([Outcome]); it then runs to completion.
    - A store operation is a computation [M A]: it receives the state of the
      page and returns the new state with either a value or a thrown value.
      The state changes made before a [throw] are kept, as in JavaScript. *)

From Stdlib Require Import ZArith String Ascii List Bool Lia.
From stdpp Require Import base option gmap strings list.
Import ListNotations.

Local Open Scope string_scope.
Local Open Scope Z_scope.

(** ** The JavaScript run time *)

Module Js.

(** *** Thrown values *)

Inductive ErrorClass :=
  | ClsError                  (* [new Error(..)] *)
  | ClsTypeError              (* raised by the engine, e.g. reading a property of [null] *)
  | ClsClientResponseError    (* raised by the remote client *)
  | ClsOther.                 (* any other thrown value *)

(** A thrown value, as far as the stores look at it: its class and its
    [message] property ([None] when the value has none). *)
Record Thrown := mkThrown {
  cls : ErrorClass;
  message : option string
}.

Definition new_Error (msg : string) : Thrown :=
  {| cls := ClsError; message := Some msg |}.

Definition new_TypeError (msg : string) : Thrown :=
  {| cls := ClsTypeError; message := Some msg |}.

(** [s] is falsy exactly when it is the empty string. *)
Definition truthy (s : string) : bool :=
  match s with
  | EmptyString => false
  | String _ _ => true
  end.

(** [error?.message || fallback] *)
Definition message_or (error : Thrown) (fallback : string) : string :=
  match message error with
  | Some m => if truthy m then m else fallback
  | None => fallback
  end.

(** [a || b] on a value that is a string or [null]. *)
Definition or_else (a : option string) (b : string) : string :=
  match a with
  | Some s => if truthy s then s else b
  | None => b
  end.

(** *** Numbers and their decimal form *)

Inductive Num :=
  | NaN
  | Int (z : Z).

Definition digit_char (d : Z) : ascii :=
  ascii_of_nat (48 + Z.to_nat d).

Fixpoint digits_go (fuel : nat) (n : Z) (acc : string) : string :=
  let acc' := String (digit_char (n mod 10)) acc in
  match fuel with
  | O => acc'
  | S fuel' => if n <? 10 then acc' else digits_go fuel' (n / 10) acc'
  end.

Definition digits (n : Z) : string :=
  digits_go (Z.to_nat (Z.log2 n)) n "".

(** [String(n)] *)
Definition String_ (n : Num) : string :=
  match n with
  | NaN => "NaN"
  | Int z => if z <? 0 then "-" ++ digits (- z) else digits z
  end.

Definition num_add (n : Num) (k : Z) : Num :=
  match n with
  | NaN => NaN
  | Int z => Int (z + k)
  end.

(** *** [String.prototype.padStart] *)

Fixpoint cycle_fill (n : nat) (fill rest : string) : string :=
  match n with
  | O => ""
  | S n' =>
      match rest with
      | String c rest' => String c (cycle_fill n' fill rest')
      | EmptyString =>
          match fill with
          | String c fill' => String c (cycle_fill n' fill fill')
          | EmptyString => ""
          end
      end
  end.

Definition padStart (maxLength : nat) (fillString : string) (s : string) : string :=
  let len := String.length s in
  if (maxLength <=? len)%nat then s
  else cycle_fill (maxLength - len) fillString fillString ++ s.

(** *** Dates

    Time values are milliseconds since the epoch, and the calendar follows
    the ECMAScript definitions ([Day], [DayFromYear], [YearFromTime],
    [MonthFromTime], [DateFromTime], [MakeDay], [MakeTime], [MakeDate]). *)

Definition msPerDay : Z := 86400000.

Definition Day (t : Z) : Z := t / msPerDay.

Definition DaysInYear (y : Z) : Z :=
  if negb (y mod 4 =? 0) then 365
  else if negb (y mod 100 =? 0) then 366
  else if negb (y mod 400 =? 0) then 365
  else 366.

Definition DayFromYear (y : Z) : Z :=
  365 * (y - 1970) + (y - 1969) / 4 - (y - 1901) / 100 + (y - 1601) / 400.

(** The largest year that starts on or before day [d], searched downwards
    from a year that starts after it. *)
Fixpoint year_search (fuel : nat) (y d : Z) : Z :=
  match fuel with
  | O => y
  | S fuel' => if DayFromYear y <=? d then y else year_search fuel' (y - 1) d
  end.

Definition year_of_day (d : Z) : Z :=
  let above := if d <? 0 then 1970 + d / 366 + 1 else 1970 + d / 365 + 1 in
  year_search (Z.to_nat (Z.abs d / 100000) + 4) above d.

Definition YearFromTime (t : Z) : Z := year_of_day (Day t).

Definition InLeapYear (t : Z) : Z :=
  if DaysInYear (YearFromTime t) =? 366 then 1 else 0.

Definition DayWithinYear (t : Z) : Z :=
  Day t - DayFromYear (YearFromTime t).

Definition MonthFromTime (t : Z) : Z :=
  let d := DayWithinYear t in
  let leap := InLeapYear t in
  if d <? 31 then 0
  else if d <? 59 + leap then 1
  else if d <? 90 + leap then 2
  else if d <? 120 + leap then 3
  else if d <? 151 + leap then 4
  else if d <? 181 + leap then 5
  else if d <? 212 + leap then 6
  else if d <? 243 + leap then 7
  else if d <? 273 + leap then 8
  else if d <? 304 + leap then 9
  else if d <? 334 + leap then 10
  else 11.

Definition DateFromTime (t : Z) : Z :=
  let d := DayWithinYear t in
  let leap := InLeapYear t in
  match MonthFromTime t with
  | 0 => d + 1
  | 1 => d - 30
  | 2 => d - 58 - leap
  | 3 => d - 89 - leap
  | 4 => d - 119 - leap
  | 5 => d - 150 - leap
  | 6 => d - 180 - leap
  | 7 => d - 211 - leap
  | 8 => d - 242 - leap
  | 9 => d - 272 - leap
  | 10 => d - 303 - leap
  | _ => d - 333 - leap
  end.

(** Days from the start of a year to the start of its month [m] (0-based). *)
Definition days_before_month (leap m : Z) : Z :=
  match m with
  | 0 => 0
  | 1 => 31
  | 2 => 59 + leap
  | 3 => 90 + leap
  | 4 => 120 + leap
  | 5 => 151 + leap
  | 6 => 181 + leap
  | 7 => 212 + leap
  | 8 => 243 + leap
  | 9 => 273 + leap
  | 10 => 304 + leap
  | _ => 334 + leap
  end.

Definition MakeDay (year month date : Z) : Z :=
  let ym := year + month / 12 in
  let mn := month mod 12 in
  let leap := if DaysInYear ym =? 366 then 1 else 0 in
  DayFromYear ym + days_before_month leap mn + date - 1.

Definition MakeTime (hour min sec ms : Z) : Z :=
  hour * 3600000 + min * 60000 + sec * 1000 + ms.

Definition MakeDate (day time : Z) : Z := day * msPerDay + time.

(** **** [Date.parse]

    [Date_parse] reads the UTC forms of the date-time string format,
    [YYYY-MM-DDTHH:mm:ssZ] and [YYYY-MM-DDTHH:mm:ss.sssZ], with element
    values that are legal for the calendar. It answers [None] for every
    other string: what a date made from such a string holds is up to the
    engine (see [new_Date] below), which may read it by rules of its own
    (a space for the [T], a date without time, an offset) or reject it. *)

Definition digit (c : ascii) : option Z :=
  let n := Z.of_nat (nat_of_ascii c) in
  if (48 <=? n) && (n <=? 57) then Some (n - 48) else None.

Fixpoint number (n : nat) (s : string) (acc : Z) : option (Z * string) :=
  match n with
  | O => Some (acc, s)
  | S n' =>
      match s with
      | String c s' =>
          match digit c with
          | Some d => number n' s' (10 * acc + d)
          | None => None
          end
      | EmptyString => None
      end
  end.

Definition expect (c : ascii) (s : string) : option string :=
  match s with
  | String c' s' => if Ascii.eqb c c' then Some s' else None
  | EmptyString => None
  end.

Definition fraction (s : string) : option (Z * string) :=
  match s with
  | String "." s' => number 3 s' 0
  | _ => Some (0, s)
  end.

Definition in_range (lo hi x : Z) : bool := (lo <=? x) && (x <=? hi).

(** Days of month [month] (1-based) of year [year]. *)
Definition DaysInMonth (year month : Z) : Z :=
  match month with
  | 2 => if DaysInYear year =? 366 then 29 else 28
  | 4 | 6 | 9 | 11 => 30
  | _ => 31
  end.

Definition Date_parse (s : string) : option Z :=
  '(year, s) ← number 4 s 0;
  s ← expect "-" s;
  '(month, s) ← number 2 s 0;
  s ← expect "-" s;
  '(date, s) ← number 2 s 0;
  s ← expect "T" s;
  '(hour, s) ← number 2 s 0;
  s ← expect ":" s;
  '(min, s) ← number 2 s 0;
  s ← expect ":" s;
  '(sec, s) ← number 2 s 0;
  '(ms, s) ← fraction s;
  s ← expect "Z" s;
  if truthy s then None
  else if in_range 1 12 month && in_range 1 (DaysInMonth year month) date
          && in_range 0 59 min && in_range 0 59 sec
          && (in_range 0 23 hour || (hour =? 24) && (min + sec + ms =? 0))
  then Some (MakeDate (MakeDay year (month - 1) date) (MakeTime hour min sec ms))
  else None.

(** A [Date] object holds a time value, [None] for an invalid date. *)
Definition Date := option Z.

(** **** The engine

    What the engine reports depends on the machine it runs on and on the
    engine itself: the offset of local time from UTC at a given instant,
    the text of the [TypeError] raised when property [p] of [null] is read,
    and the time value, if any, it makes of a string that is not in one of
    the forms [Date_parse] reads. *)

Record Runtime := mkRuntime {
  LocalTZA : Z -> Z;
  null_read_message : string -> string;
  parse_fallback : string -> option Z
}.

(** [new Date(s)] for a string [s] *)
Definition new_Date (rt : Runtime) (s : string) : Date :=
  match Date_parse s with
  | Some t => Some t
  | None => parse_fallback rt s
  end.

Definition LocalTime (rt : Runtime) (t : Z) : Z := t + LocalTZA rt t.

Definition getDate (rt : Runtime) (d : Date) : Num :=
  match d with
  | Some t => Int (DateFromTime (LocalTime rt t))
  | None => NaN
  end.

Definition getMonth (rt : Runtime) (d : Date) : Num :=
  match d with
  | Some t => Int (MonthFromTime (LocalTime rt t))
  | None => NaN
  end.

Definition getFullYear (rt : Runtime) (d : Date) : Num :=
  match d with
  | Some t => Int (YearFromTime (LocalTime rt t))
  | None => NaN
  end.

(** *** [JSON.stringify]

    The values that reach it from the stores: strings, [null], [undefined],
    browser [File] objects and plain objects. The properties of a plain
    object are listed in the order in which the engine enumerates them
    (creation order, for the names used here). *)

Record File := mkFile {
  file_name : string;
  file_size : Z
}.

#[warnings="-register-all"]
Inductive Value :=
  | VUndefined
  | VNull
  | VStr (s : string)
  | VFile (f : File)
  | VObj (props : list (string * Value)).

Definition dquote : ascii := "034"%char.
Definition backslash : ascii := "092"%char.

Definition hex_char (n : nat) : ascii :=
  if (n <? 10)%nat then ascii_of_nat (48 + n) else ascii_of_nat (87 + n).

Definition unicode_escape (n : nat) : string :=
  String backslash
    (String "u" (String "0" (String "0"
      (String (hex_char (n / 16)) (String (hex_char (n mod 16)) ""))))).

(** One code unit inside [QuoteJSONString]. *)
Definition escape (c : ascii) : string :=
  let n := nat_of_ascii c in
  if (n =? 8)%nat then String backslash "b"
  else if (n =? 9)%nat then String backslash "t"
  else if (n =? 10)%nat then String backslash "n"
  else if (n =? 12)%nat then String backslash "f"
  else if (n =? 13)%nat then String backslash "r"
  else if (n =? 34)%nat then String backslash (String dquote "")
  else if (n =? 92)%nat then String backslash (String backslash "")
  else if (n <? 32)%nat then unicode_escape n
  else String c "".

Fixpoint quote_body (s : string) : string :=
  match s with
  | EmptyString => ""
  | String c s' => escape c ++ quote_body s'
  end.

Definition QuoteJSONString (s : string) : string :=
  String dquote (quote_body s ++ String dquote "").

(** [SerializeJSONProperty]: [None] is [undefined]. A property whose value
    serializes to [undefined] is left out of its object. A [File] has no
    enumerable property of its own. *)
Fixpoint SerializeJSONProperty (v : Value) : option string :=
  match v with
  | VUndefined => None
  | VNull => Some "null"
  | VStr s => Some (QuoteJSONString s)
  | VFile _ => Some "{}"
  | VObj props =>
      let members :=
        (fix go (ps : list (string * Value)) : list string :=
           match ps with
           | [] => []
           | (k, v') :: ps' =>
               match SerializeJSONProperty v' with
               | Some str => (QuoteJSONString k ++ ":" ++ str) :: go ps'
               | None => go ps'
               end
           end) props in
      Some ("{" ++ String.concat "," members ++ "}")
  end.

Definition JSON_stringify (v : Value) : option string :=
  SerializeJSONProperty v.

(** [a !== b] on results of [JSON.stringify]. *)
Definition strict_not_equal (a b : option string) : bool :=
  match a, b with
  | Some x, Some y => negb (String.eqb x y)
  | None, None => false
  | _, _ => true
  end.

End Js.

Import Js.

(** ** The data of the application *)

(** The profile held by the user store ([UserType]). *)
Record UserType := mkUser {
  u_id : string;
  u_token : string;
  u_name : string;
  u_email : string;
  u_avatar : string;
  u_created : string;
  u_themeMode : string;
  u_password : string;
  u_passwordConfirm : string;
  u_oldPassword : string;
  u_avatarFile : option File
}.

(** The run-time object of a profile, with its properties in the order in
    which [mapAuthDataToUser] writes them. *)
Definition UserType_to_value (u : UserType) : Value :=
  VObj [ ("id", VStr (u_id u));
         ("token", VStr (u_token u));
         ("name", VStr (u_name u));
         ("email", VStr (u_email u));
         ("avatar", VStr (u_avatar u));
         ("created", VStr (u_created u));
         ("themeMode", VStr (u_themeMode u));
         ("password", VStr (u_password u));
         ("passwordConfirm", VStr (u_passwordConfirm u));
         ("oldPassword", VStr (u_oldPassword u));
         ("avatarFile", match u_avatarFile u with
                        | Some f => VFile f
                        | None => VNull
                        end) ].

(** The user record of the remote collection, with the fields the stores
    read. *)
Record RawRecord := mkRecord {
  r_id : string;
  r_avatar : string;
  r_created : string;
  r_themeMode : string;
  r_name : string;
  r_email : string
}.

Definition with_themeMode (theme : string) (r : RawRecord) : RawRecord :=
  {| r_id := r_id r; r_avatar := r_avatar r; r_created := r_created r;
     r_themeMode := theme; r_name := r_name r; r_email := r_email r |}.

(** The registration form ([NewUserType]). *)
Record NewUserType := mkNewUser {
  n_email : string;
  n_name : string;
  n_themeMode : string;
  n_password : string;
  n_passwordConfirm : string
}.

(** The body sent by [createAccount]. *)
Record CreateData := mkCreateData {
  c_email : string;
  c_emailVisibility : bool;
  c_name : string;
  c_themeMode : string;
  c_password : string;
  c_passwordConfirm : string
}.

(** The argument of [updateUser]: a profile or a [FormData]. *)
Inductive UpdateData :=
  | UpdateUser (u : UserType)
  | UpdateForm (entries : list (string * string)).

(** A record object lives in the heap; [authData.record] refers to it. *)
Definition ref := nat.

Record AuthData := mkAuthData {
  ad_token : string;
  ad_record : ref
}.

(** ** The remote client

    The client object [pb] is made by [usePocketbaseStore], which wraps the
    PocketBase client library; neither is among the three stores. Each of
    its calls is described by the way it settles. The client keeps a
    session of its own, in [pb.authStore] and under the ['pocketbase_auth']
    key of [localStorage]: [pb_token_isValid] is its verdict on a token, and
    [pb_session_text] the text it stores for a session. What the client
    does to that session of its own in calls other than the authentication
    calls is not described. *)

Inductive Outcome (A : Type) :=
  | Resolved (a : A)
  | Rejected (e : Thrown).
Arguments Resolved {A} a.
Arguments Rejected {A} e.

(** What an authentication call resolves with: a token and the content of a
    new record object. *)
Record AuthResponse := mkAuthResponse {
  resp_token : string;
  resp_record : RawRecord
}.

Record Remote := mkRemote {
  pb_create : CreateData -> Outcome unit;
  pb_authWithPassword : string -> string -> Outcome AuthResponse;
  pb_authWithOAuth2 : string -> Outcome AuthResponse;
  pb_authRefresh : Outcome AuthResponse;
  pb_requestEmailChange : string -> Outcome unit;
  pb_delete : string -> Outcome unit;
  pb_update : string -> UpdateData -> Outcome RawRecord;
  pb_files_getURL : RawRecord -> string -> string -> string;
  pb_token_isValid : string -> bool;
  pb_session_text : AuthResponse -> string
}.

(** Modelled from the spec: [pb.authStore] is the remote session marker of
    the specification, which the stores only test ([isValid]) and clear. It
    is kept as the token it holds and its [isValid] flag. *)
Record AuthStore := mkAuthStore {
  as_token : string;
  isValid : bool
}.

(** ** The state of the page *)

Record State := mkState {
  userData : option UserType;            (* userStore.userData.value *)
  activeTheme : string;                  (* themeStore.activeTheme.value *)
  localStorage : gmap string string;
  authStore : AuthStore;                 (* pb.authStore *)
  heap : gmap ref RawRecord              (* record objects received so far *)
}.

Definition set_userData (v : option UserType) (s : State) : State :=
  {| userData := v; activeTheme := activeTheme s;
     localStorage := localStorage s; authStore := authStore s; heap := heap s |}.

Definition set_activeTheme (v : string) (s : State) : State :=
  {| userData := userData s; activeTheme := v;
     localStorage := localStorage s; authStore := authStore s; heap := heap s |}.

Definition set_localStorage (v : gmap string string) (s : State) : State :=
  {| userData := userData s; activeTheme := activeTheme s;
     localStorage := v; authStore := authStore s; heap := heap s |}.

Definition set_authStore (v : AuthStore) (s : State) : State :=
  {| userData := userData s; activeTheme := activeTheme s;
     localStorage := localStorage s; authStore := v; heap := heap s |}.

Definition set_heap (v : gmap ref RawRecord) (s : State) : State :=
  {| userData := userData s; activeTheme := activeTheme s;
     localStorage := localStorage s; authStore := authStore s; heap := v |}.

(** ** Computations that change the state and may throw *)

Inductive Completion (A : Type) :=
  | Normal (a : A)
  | Throw (e : Thrown).
Arguments Normal {A} a.
Arguments Throw {A} e.

Definition M (A : Type) : Type := State -> State * Completion A.

Definition ret {A} (a : A) : M A := fun s => (s, Normal a).

Definition throw {A} (e : Thrown) : M A := fun s => (s, Throw e).

Definition bind {A B} (m : M A) (k : A -> M B) : M B :=
  fun s =>
    match m s with
    | (s', Normal a) => k a s'
    | (s', Throw e) => (s', Throw e)
    end.

(** [try { body } catch (error) { handler }] *)
Definition try_catch {A} (body : M A) (handler : Thrown -> M A) : M A :=
  fun s =>
    match body s with
    | (s', Normal a) => (s', Normal a)
    | (s', Throw e) => handler e s'
    end.

Definition gets {A} (f : State -> A) : M A := fun s => (s, Normal (f s)).

Definition modify (f : State -> State) : M unit := fun s => (f s, Normal tt).

(** [await] of a call that settles as [o]. *)
Definition await {A} (o : Outcome A) : M A :=
  match o with
  | Resolved a => ret a
  | Rejected e => throw e
  end.

Notation "'let*' x := e 'in' k" := (bind e (fun x => k))
  (at level 10, x name, e at level 100, k at level 200, only parsing).

(** ** The stores *)

Section Stores.

Variable rt : Runtime.
Variable pb : Remote.

(** *** Record objects *)

(** A record object handed over by the remote client becomes a new heap
    cell. *)
Definition alloc (r : RawRecord) : M ref :=
  fun s =>
    let l := fresh (dom (heap s)) in
    (set_heap (<[l := r]> (heap s)) s, Normal l).

(** [record.p]: reading a property through a reference that holds no
    object is the engine's [TypeError]. *)
Definition read {A} (record : ref) (p : string) (field : RawRecord -> A) : M A :=
  fun s =>
    match heap s !! record with
    | Some r => (s, Normal (field r))
    | None => (s, Throw (new_TypeError (null_read_message rt p)))
    end.

(** [record.themeMode = v] *)
Definition write_themeMode (record : ref) (v : string) : M unit :=
  fun s =>
    match heap s !! record with
    | Some r => (set_heap (<[record := with_themeMode v r]> (heap s)) s, Normal tt)
    | None => (s, Throw (new_TypeError (null_read_message rt "themeMode")))
    end.

(** *** [localStorage] and [pb.authStore] *)

Definition localStorage_getItem (key : string) : M (option string) :=
  gets (fun s => localStorage s !! key).

Definition localStorage_setItem (key value : string) : M unit :=
  modify (fun s => set_localStorage (<[key := value]> (localStorage s)) s).

Definition localStorage_removeItem (key : string) : M unit :=
  modify (fun s => set_localStorage (delete key (localStorage s)) s).

(** Modelled from the spec: [pb.authStore.clear()] clears the remote
    session marker, which is not valid afterwards. *)
Definition authStore_clear : M unit :=
  modify (set_authStore {| as_token := ""; isValid := false |}).

(** Modelled from the spec: an authentication call of the client
    (authenticate-with-password, authenticate-with-OAuth, refresh-session)
    yields a session and a record. When it resolves, the client keeps the
    new token in [pb.authStore], which is valid if the client finds the
    token so, stores the session under the ['pocketbase_auth'] key of
    [localStorage] (the key that [logout] removes), and hands over a new
    record object; when it is rejected, nothing changes. *)
Definition auth_call (o : Outcome AuthResponse) : M AuthData :=
  let* resp := await o in
  let* record := alloc (resp_record resp) in
  let* _ := modify (set_authStore
                      {| as_token := resp_token resp;
                         isValid := pb_token_isValid pb (resp_token resp) |}) in
  let* _ := localStorage_setItem "pocketbase_auth" (pb_session_text pb resp) in
  ret {| ad_token := resp_token resp; ad_record := record |}.

(** *** useUserStore *)

Definition saveUserData (authData : UserType) : M unit :=
  modify (set_userData (Some authData)).

Definition clearUser : M unit :=
  modify (set_userData None).

(** [userData.value.id] *)
Definition userData_value_id : M string :=
  fun s =>
    match userData s with
    | Some u => (s, Normal (u_id u))
    | None => (s, Throw (new_TypeError (null_read_message rt "id")))
    end.

Definition updateUser (newData : UpdateData) : M bool :=
  try_catch
    (let* id := userData_value_id in
     let* _ := await (pb_update pb id newData) in
     ret true)
    (fun error =>
       throw (new_Error
                (message_or error "Failed to update user data. Please try again."))).

(** [userData.value] as a run-time value *)
Definition userData_value (s : State) : Value :=
  match userData s with
  | Some u => UserType_to_value u
  | None => VNull
  end.

Definition userDataHasEdited (data : Value) : M bool :=
  let* held := gets userData_value in
  ret (strict_not_equal (JSON_stringify data) (JSON_stringify held)).

(** *** useThemeStore *)

Definition setTheme : M unit :=
  let* user := gets userData in
  let* _ :=
    match user with
    | Some u => modify (set_activeTheme (u_themeMode u))
    | None =>
        let* item := localStorage_getItem "theme" in
        modify (set_activeTheme (or_else item "forest"))
    end in
  let* theme := gets activeTheme in
  localStorage_setItem "theme" theme.

Definition changeTheme : M unit :=
  let* theme := gets activeTheme in
  modify (set_activeTheme (if String.eqb theme "forest" then "winter" else "forest")).

(** *** useMyAuthStore *)

Definition mapAuthDataToUser (authData : AuthData) : M UserType :=
  let record := ad_record authData in
  let* file := read record "avatar" r_avatar in
  let* avatar :=
    if truthy file
    then let* r := read record "avatar" (fun r => r) in
         ret (pb_files_getURL pb r file "100x250")
    else ret "" in
  let* d := read record "created" (fun r => new_Date rt (r_created r)) in
  let created :=
    padStart 2 "0" (String_ (getDate rt d)) ++ "-" ++
    padStart 2 "0" (String_ (num_add (getMonth rt d) 1)) ++ "-" ++
    String_ (getFullYear rt d) in
  let* stored := read record "themeMode" r_themeMode in
  let* _ :=
    if String.eqb stored ""
    then let* theme := gets activeTheme in write_themeMode record theme
    else ret tt in
  let* id := read record "id" r_id in
  let* name := read record "name" r_name in
  let* email := read record "email" r_email in
  let* themeMode := read record "themeMode" r_themeMode in
  ret {| u_id := id;
         u_token := ad_token authData;
         u_name := name;
         u_email := email;
         u_avatar := avatar;
         u_created := created;
         u_themeMode := themeMode;
         u_password := "";
         u_passwordConfirm := "";
         u_oldPassword := "";
         u_avatarFile := None |}.

Definition login (email password : string) : M AuthData :=
  try_catch
    (let* authData := auth_call (pb_authWithPassword pb email password) in
     let* user := mapAuthDataToUser authData in
     let* _ := saveUserData user in
     ret authData)
    (fun error =>
       throw (new_Error
                (message_or error "Login failed. Please check your credentials."))).

Definition createAccount (newUser : NewUserType) : M AuthData :=
  let data :=
    {| c_email := n_email newUser;
       c_emailVisibility := false;
       c_name := n_name newUser;
       c_themeMode := n_themeMode newUser;
       c_password := n_password newUser;
       c_passwordConfirm := n_passwordConfirm newUser |} in
  try_catch
    (let* _ := await (pb_create pb data) in
     let* authData := login (n_email newUser) (n_password newUser) in
     let* user := mapAuthDataToUser authData in
     let* _ := saveUserData user in
     ret authData)
    (fun error =>
       throw (new_Error
                (message_or error "Account creation failed. Please try again."))).

Definition loginWithGoogle : M AuthData :=
  try_catch
    (let* authData := auth_call (pb_authWithOAuth2 pb "google") in
     let* user := mapAuthDataToUser authData in
     let* _ := saveUserData user in
     ret authData)
    (fun error =>
       throw (new_Error
                (message_or error "Google login failed. Please try again."))).

Definition logout : M unit :=
  let* _ := authStore_clear in
  let* _ := localStorage_removeItem "pocketbase_auth" in
  clearUser.

Definition authRefresh : M unit :=
  try_catch
    (let* valid := gets (fun s => isValid (authStore s)) in
     if negb valid
     then
       let* _ := authStore_clear in
       let* _ := localStorage_removeItem "pocketbase_auth" in
       clearUser
     else
       let* authData := auth_call (pb_authRefresh pb) in
       let* user := mapAuthDataToUser authData in
       saveUserData user)
    (fun error =>
       let* _ := authStore_clear in
       let* _ := localStorage_removeItem "pocketbase_auth" in
       clearUser).

(** [console.log] leaves no trace in the state. *)
Definition emailChange (newEmail : string) : M unit :=
  try_catch
    (await (pb_requestEmailChange pb newEmail))
    (fun error =>
       throw (new_Error
                (message_or error "Email change failed. Please try again."))).

Definition deleteAccount : M unit :=
  try_catch
    (let* id := userData_value_id in
     await (pb_delete pb id))
    (fun error =>
       throw (new_Error
                (message_or error "Account deletion failed. Please try again."))).

End Stores.

(** ** The states the page can be in *)

(** A call of one of the operations the stores export. *)
Inductive Op :=
  | OpLogin (email password : string)
  | OpLoginWithGoogle
  | OpCreateAccount (newUser : NewUserType)
  | OpLogout
  | OpAuthRefresh
  | OpEmailChange (newEmail : string)
  | OpDeleteAccount
  | OpSaveUserData (authData : UserType)
  | OpClearUser
  | OpUpdateUser (newData : UpdateData)
  | OpUserDataHasEdited (data : Value)
  | OpSetTheme
  | OpChangeTheme.

Definition exec (rt : Runtime) (pb : Remote) (op : Op) (s : State) : State :=
  match op with
  | OpLogin email password => fst (login rt pb email password s)
  | OpLoginWithGoogle => fst (loginWithGoogle rt pb s)
  | OpCreateAccount newUser => fst (createAccount rt pb newUser s)
  | OpLogout => fst (logout s)
  | OpAuthRefresh => fst (authRefresh rt pb s)
  | OpEmailChange newEmail => fst (emailChange pb newEmail s)
  | OpDeleteAccount => fst (deleteAccount rt pb s)
  | OpSaveUserData authData => fst (saveUserData authData s)
  | OpClearUser => fst (clearUser s)
  | OpUpdateUser newData => fst (updateUser rt pb newData s)
  | OpUserDataHasEdited data => fst (userDataHasEdited data s)
  | OpSetTheme => fst (setTheme s)
  | OpChangeTheme => fst (changeTheme s)
  end.

(** The stores as they are set up: no profile, the theme ['forest'];
    [localStorage] and [pb.authStore] hold what an earlier visit left. *)
Definition initial (storage : gmap string string) (session : AuthStore) : State :=
  {| userData := None;
     activeTheme := "forest";
     localStorage := storage;
     authStore := session;
     heap := ∅ |}.

(** The states reached from the initial one by calls of the operations, by
    an authentication call of the client settling, and by changes to
    [localStorage] made outside the stores. *)
Inductive reachable : State -> Prop :=
  | reach_initial storage session :
      reachable (initial storage session)
  | reach_exec rt pb op s :
      reachable s -> reachable (exec rt pb op s)
  | reach_auth_call pb o s :
      reachable s -> reachable (fst (auth_call pb o s))
  | reach_storage storage s :
      reachable s -> reachable (set_localStorage storage s).

(** ** Structural equality of run-time values

    The comparison the specification names for [userDataHasEdited]: two
    values are deep-equal when they are of the same kind and, for objects,
    have the same property names with deep-equal values, in whatever
    order. *)

Fixpoint get_property (k : string) (ps : list (string * Value)) : option Value :=
  match ps with
  | [] => None
  | (k', v) :: ps' => if String.eqb k k' then Some v else get_property k ps'
  end.

Definition File_eqb (f g : File) : bool :=
  String.eqb (file_name f) (file_name g) && (file_size f =? file_size g).

Fixpoint deep_equal (a b : Value) : bool :=
  match a, b with
  | VUndefined, VUndefined => true
  | VNull, VNull => true
  | VStr x, VStr y => String.eqb x y
  | VFile f, VFile g => File_eqb f g
  | VObj ps, VObj qs =>
      (length ps =? length qs)%nat &&
      forallb (fun p => match get_property (fst p) qs with
                        | Some w => deep_equal (snd p) w
                        | None => false
                        end) ps
  | _, _ => false
  end.

(** ** What the proofs need besides the code *)

(** The profile [mapAuthDataToUser] returns for a record with content [r],
    and the state it leaves. *)
Definition created_text (rt : Runtime) (created : string) : string :=
  let d := new_Date rt created in
  padStart 2 "0" (String_ (getDate rt d)) ++ "-" ++
  padStart 2 "0" (String_ (num_add (getMonth rt d) 1)) ++ "-" ++
  String_ (getFullYear rt d).

Definition mapped_user (rt : Runtime) (pb : Remote)
    (token theme : string) (r : RawRecord) : UserType :=
  {| u_id := r_id r;
     u_token := token;
     u_name := r_name r;
     u_email := r_email r;
     u_avatar := if truthy (r_avatar r)
                 then pb_files_getURL pb r (r_avatar r) "100x250" else "";
     u_created := created_text rt (r_created r);
     u_themeMode := if String.eqb (r_themeMode r) "" then theme else r_themeMode r;
     u_password := "";
     u_passwordConfirm := "";
     u_oldPassword := "";
     u_avatarFile := None |}.

Definition mapped_state (l : ref) (r : RawRecord) (s : State) : State :=
  if String.eqb (r_themeMode r) ""
  then set_heap (<[l := with_themeMode (activeTheme s) r]> (heap s)) s
  else s.

(** The state after an authentication call has resolved with [resp]. *)
Definition received (pb : Remote) (resp : AuthResponse) (s : State) : State :=
  set_localStorage (<["pocketbase_auth" := pb_session_text pb resp]> (localStorage s))
    (set_authStore {| as_token := resp_token resp;
                      isValid := pb_token_isValid pb (resp_token resp) |}
       (set_heap (<[fresh (dom (heap s)) := resp_record resp]> (heap s)) s)).

(** The state after the session has been dropped. *)
Definition signed_out (s : State) : State :=
  set_userData None
    (set_localStorage (delete "pocketbase_auth" (localStorage s))
       (set_authStore {| as_token := ""; isValid := false |} s)).

(** What [JSON.stringify] shows of a profile: every string field, and
    whether a file is pending, but nothing of the file itself. *)
Definition same_serialized_fields (u h : UserType) : Prop :=
  u_id u = u_id h /\ u_token u = u_token h /\ u_name u = u_name h /\
  u_email u = u_email h /\ u_avatar u = u_avatar h /\
  u_created u = u_created h /\ u_themeMode u = u_themeMode h /\
  u_password u = u_password h /\ u_passwordConfirm u = u_passwordConfirm h /\
  u_oldPassword u = u_oldPassword h /\
  (u_avatarFile u = None <-> u_avatarFile h = None).

(** Reading one escaped code unit back, to show that [escape] loses
    nothing. *)
Definition hex_value (c : ascii) : nat :=
  let n := nat_of_ascii c in
  if (n <? 58)%nat then (n - 48)%nat else (n - 87)%nat.

Definition unescape (s : string) : option (ascii * string) :=
  match s with
  | EmptyString => None
  | String c s' =>
      if Ascii.eqb c dquote then None
      else if Ascii.eqb c backslash then
        match s' with
        | String e s'' =>
            if Ascii.eqb e "b" then Some ("008"%char, s'')
            else if Ascii.eqb e "t" then Some ("009"%char, s'')
            else if Ascii.eqb e "n" then Some ("010"%char, s'')
            else if Ascii.eqb e "f" then Some ("012"%char, s'')
            else if Ascii.eqb e "r" then Some ("013"%char, s'')
            else if Ascii.eqb e "u" then
              match s'' with
              | String _ (String _ (String h (String l rest))) =>
                  Some (ascii_of_nat (16 * hex_value h + hex_value l), rest)
              | _ => None
              end
            else Some (e, s'')
        | EmptyString => None
        end
      else Some (c, s')
  end.

(** [m] keeps the invariant [I] and returns values in [Q]. *)
Definition keeps {A} (I : State -> Prop) (m : M A) (Q : A -> Prop) : Prop :=
  forall s, I s ->
    I (fst (m s)) /\ forall a, snd (m s) = Normal a -> Q a.

(** *** Sample data *)

Definition v8_message (p : string) : string :=
  "Cannot read properties of null (reading '" ++ p ++ "')".

(** An engine whose local time is UTC, and one five hours behind it. *)
Definition rt_utc : Runtime :=
  {| LocalTZA := fun _ => 0; null_read_message := v8_message;
     parse_fallback := fun _ => None |}.

Definition rt_new_york : Runtime :=
  {| LocalTZA := fun _ => -18000000; null_read_message := v8_message;
     parse_fallback := fun _ => None |}.

Definition record_ann : RawRecord :=
  {| r_id := "u1"; r_avatar := ""; r_created := "2024-03-05T00:00:00Z";
     r_themeMode := ""; r_name := "Ann"; r_email := "a@x.com" |}.

Definition response_ann : AuthResponse :=
  {| resp_token := "tok1"; resp_record := record_ann |}.

Definition offline : Thrown :=
  {| cls := ClsClientResponseError; message := Some "Failed to fetch" |}.

(** A backend on which every call succeeds, with Ann as the user. *)
Definition pb_ann : Remote :=
  {| pb_create := fun _ => Resolved tt;
     pb_authWithPassword := fun _ _ => Resolved response_ann;
     pb_authWithOAuth2 := fun _ => Resolved response_ann;
     pb_authRefresh := Resolved response_ann;
     pb_requestEmailChange := fun _ => Resolved tt;
     pb_delete := fun _ => Resolved tt;
     pb_update := fun _ _ => Resolved record_ann;
     pb_files_getURL := fun r file thumb =>
       "/api/files/users/" ++ r_id r ++ "/" ++ file ++ "?thumb=" ++ thumb;
     pb_token_isValid := truthy;
     pb_session_text := fun resp =>
       resp_token resp ++ " " ++ r_id (resp_record resp) |}.

(** A backend that cannot be reached. *)
Definition pb_offline : Remote :=
  {| pb_create := fun _ => Rejected offline;
     pb_authWithPassword := fun _ _ => Rejected offline;
     pb_authWithOAuth2 := fun _ => Rejected offline;
     pb_authRefresh := Rejected offline;
     pb_requestEmailChange := fun _ => Rejected offline;
     pb_delete := fun _ => Rejected offline;
     pb_update := fun _ _ => Rejected offline;
     pb_files_getURL := pb_files_getURL pb_ann;
     pb_token_isValid := pb_token_isValid pb_ann;
     pb_session_text := pb_session_text pb_ann |}.

Definition no_session : AuthStore := {| as_token := ""; isValid := false |}.

(** A first visit: nothing stored. *)
Definition first_visit : State := initial ∅ no_session.

(** Ann has logged in on a first visit. *)
Definition ann_logged_in : State :=
  exec rt_utc pb_ann (OpLogin "a@x.com" "secret") first_visit.

Definition user_ann : UserType :=
  {| u_id := "u1"; u_token := "tok1"; u_name := "Ann"; u_email := "a@x.com";
     u_avatar := ""; u_created := "05-03-2024"; u_themeMode := "forest";
     u_password := ""; u_passwordConfirm := ""; u_oldPassword := "";
     u_avatarFile := None |}.

(** A profile saved without a theme. *)
Definition user_no_theme : UserType :=
  {| u_id := "u0"; u_token := "tok0"; u_name := "Nobody"; u_email := "n@x.com";
     u_avatar := ""; u_created := "01-01-2024"; u_themeMode := "";
     u_password := ""; u_passwordConfirm := ""; u_oldPassword := "";
     u_avatarFile := None |}.

(** The client has just handed over Ann's record on a first visit. *)
Definition ann_received : State :=
  fst (auth_call pb_ann (Resolved response_ann) first_visit).

Definition ann_authData : AuthData := {| ad_token := "tok1"; ad_record := 0%nat |}.

(** The profile without theme has been saved, [setTheme] has been called,
    and the client has then handed over Ann's record. *)
Definition themeless_received : State :=
  fst (auth_call pb_ann (Resolved response_ann)
         (exec rt_utc pb_ann OpSetTheme
            (exec rt_utc pb_ann (OpSaveUserData user_no_theme) first_visit))).

(** Two files picked for the avatar. *)
Definition file_cat : File := {| file_name := "cat.png"; file_size := 1024 |}.
Definition file_dog : File := {| file_name := "dog.png"; file_size := 2048 |}.

Definition with_avatarFile (f : option File) (u : UserType) : UserType :=
  {| u_id := u_id u; u_token := u_token u; u_name := u_name u;
     u_email := u_email u; u_avatar := u_avatar u; u_created := u_created u;
     u_themeMode := u_themeMode u; u_password := u_password u;
     u_passwordConfirm := u_passwordConfirm u; u_oldPassword := u_oldPassword u;
     u_avatarFile := f |}.

(** Ann's profile with the cat picture pending is the held profile. *)
Definition ann_with_cat : State :=
  fst (saveUserData (with_avatarFile (Some file_cat) user_ann) ann_logged_in).

(** Ann's profile as a form may rebuild it: the same properties, the name
    first. *)
Definition ann_name_first : Value :=
  VObj [ ("name", VStr "Ann");
         ("id", VStr "u1");
         ("token", VStr "tok1");
         ("email", VStr "a@x.com");
         ("avatar", VStr "");
         ("created", VStr "05-03-2024");
         ("themeMode", VStr "forest");
         ("password", VStr "");
         ("passwordConfirm", VStr "");
         ("oldPassword", VStr "");
         ("avatarFile", VNull) ].

(** ** Further notions used below *)

(** The state after a sign-in whose authentication call resolved with
    [resp]: the record object is in the heap, normalized, and the profile
    made from it is the held one. *)
Definition signed_in (rt : Runtime) (pb : Remote) (resp : AuthResponse)
    (s : State) : State :=
  set_userData
    (Some (mapped_user rt pb (resp_token resp) (activeTheme s) (resp_record resp)))
    (mapped_state (fresh (dom (heap s))) (resp_record resp) (received pb resp s)).

(** An error as the [catch] blocks of the stores raise it: a plain [Error]
    with a message that is not empty. *)
Definition normalized (e : Thrown) : Prop :=
  cls e = ClsError /\ exists m, message e = Some m /\ m <> "".

(** The fields of a profile that only forms fill in. *)
Definition transient_empty (u : UserType) : Prop :=
  u_password u = "" /\ u_passwordConfirm u = "" /\ u_oldPassword u = "" /\
  u_avatarFile u = None.

(** The operations of the theme store. *)
Definition is_theme_op (op : Op) : bool :=
  match op with
  | OpSetTheme | OpChangeTheme => true
  | _ => false
  end.

(** The file-URL builder looks at the record for its identity only, not at
    its theme. *)
Definition getURL_ignores_theme (pb : Remote) : Prop :=
  forall r theme file thumb,
    pb_files_getURL pb (with_themeMode theme r) file thumb =
    pb_files_getURL pb r file thumb.

(** The record object at [l] has content [r]; the authentication result
    [authData] refers to another object. *)
Definition holds (l : ref) (r : RawRecord) (s : State) : Prop :=
  heap s !! l = Some r.

Definition other (l : ref) (authData : AuthData) : Prop :=
  ad_record authData <> l.

(** *** More sample data *)

(** Bob has a picture and prefers the winter theme. *)
Definition record_bob : RawRecord :=
  {| r_id := "u2"; r_avatar := "bob.png"; r_created := "2023-12-31T23:30:00Z";
     r_themeMode := "winter"; r_name := "Bob"; r_email := "b@x.com" |}.

Definition response_bob : AuthResponse :=
  {| resp_token := "tok2"; resp_record := record_bob |}.

Definition pb_bob : Remote :=
  {| pb_create := fun _ => Resolved tt;
     pb_authWithPassword := fun _ _ => Resolved response_bob;
     pb_authWithOAuth2 := fun _ => Resolved response_bob;
     pb_authRefresh := Resolved response_bob;
     pb_requestEmailChange := fun _ => Resolved tt;
     pb_delete := fun _ => Resolved tt;
     pb_update := fun _ _ => Resolved record_bob;
     pb_files_getURL := pb_files_getURL pb_ann;
     pb_token_isValid := pb_token_isValid pb_ann;
     pb_session_text := pb_session_text pb_ann |}.

(** A backend that refuses every call without giving a reason. *)
Definition silent : Thrown := {| cls := ClsOther; message := None |}.

Definition pb_silent : Remote :=
  {| pb_create := fun _ => Rejected silent;
     pb_authWithPassword := fun _ _ => Rejected silent;
     pb_authWithOAuth2 := fun _ => Rejected silent;
     pb_authRefresh := Rejected silent;
     pb_requestEmailChange := fun _ => Rejected silent;
     pb_delete := fun _ => Rejected silent;
     pb_update := fun _ _ => Rejected silent;
     pb_files_getURL := pb_files_getURL pb_ann;
     pb_token_isValid := pb_token_isValid pb_ann;
     pb_session_text := pb_session_text pb_ann |}.

(** A backend on which accounts can be created but nobody can log in. *)
Definition pb_no_login : Remote :=
  {| pb_create := fun _ => Resolved tt;
     pb_authWithPassword := fun _ _ => Rejected offline;
     pb_authWithOAuth2 := fun _ => Rejected offline;
     pb_authRefresh := Rejected offline;
     pb_requestEmailChange := fun _ => Rejected offline;
     pb_delete := fun _ => Rejected offline;
     pb_update := fun _ _ => Rejected offline;
     pb_files_getURL := pb_files_getURL pb_ann;
     pb_token_isValid := pb_token_isValid pb_ann;
     pb_session_text := pb_session_text pb_ann |}.

Definition new_ann : NewUserType :=
  {| n_email := "a@x.com"; n_name := "Ann"; n_themeMode := "";
     n_password := "secret"; n_passwordConfirm := "secret" |}.

(** A return visit of somebody who chose the winter theme. *)
Definition winter_visit : State :=
  initial (<["theme" := "winter"]> ∅) no_session.

(** An engine that also reads a date and time separated by a space, the
    form in which the backend writes its timestamps. *)
Definition rt_lenient : Runtime :=
  {| LocalTZA := fun _ => 0; null_read_message := v8_message;
     parse_fallback := fun s =>
       if String.eqb s "2024-03-05 00:00:00.000Z" then Some 1709596800000
       else None |}.

(** A record whose creation date cannot be read. *)
Definition record_undated : RawRecord :=
  {| r_id := "u3"; r_avatar := ""; r_created := "";
     r_themeMode := "winter"; r_name := "Cy"; r_email := "c@x.com" |}.

Definition undated_received : State :=
  fst (auth_call pb_ann
         (Resolved {| resp_token := "tok3"; resp_record := record_undated |})
         first_visit).

(** * Properties *)

(** ** The run time on small inputs *)

Example String_of_numbers :
  String_ (Int 5) = "5" /\ String_ (Int 2024) = "2024" /\
  String_ (Int 0) = "0" /\ String_ (Int (-15)) = "-15" /\ String_ NaN = "NaN".
Proof. repeat split. Qed.

Example padStart_two_digits :
  padStart 2 "0" "5" = "05" /\ padStart 2 "0" "12" = "12" /\
  padStart 2 "0" "NaN" = "NaN" /\ padStart 5 "ab" "x" = "ababx".
Proof. repeat split. Qed.

Example Date_parse_forms :
  Date_parse "2024-03-05T00:00:00Z" = Some 1709596800000 /\
  Date_parse "1970-01-01T00:00:00.000Z" = Some 0 /\
  Date_parse "2024-02-29T23:59:59.999Z" = Some 1709251199999 /\
  Date_parse "yesterday" = None.
Proof. repeat split. Qed.

Example year_of_day_2024 :
  DayFromYear 2024 <= Day 1709596800000 < DayFromYear 2025 /\
  YearFromTime 1709596800000 = 2024 /\
  MonthFromTime 1709596800000 = 2 /\
  DateFromTime 1709596800000 = 5.
Proof. vm_compute. repeat split; discriminate. Qed.

Example calendar_edges :
  (YearFromTime (-1), MonthFromTime (-1), DateFromTime (-1)) = (1969, 11, 31) /\
  (YearFromTime 951782400000, MonthFromTime 951782400000,
   DateFromTime 951782400000) = (2000, 1, 29) /\
  (YearFromTime 8640000000000000, MonthFromTime 8640000000000000,
   DateFromTime 8640000000000000) = (275760, 8, 13) /\
  (YearFromTime (-8640000000000000), MonthFromTime (-8640000000000000),
   DateFromTime (-8640000000000000)) = (-271821, 3, 20).
Proof. vm_compute. repeat split. Qed.

Example Date_parse_is_strict :
  Date_parse "2024-02-30T00:00:00Z" = None /\
  Date_parse "2023-02-29T00:00:00Z" = None /\
  Date_parse "2024-13-01T00:00:00Z" = None /\
  Date_parse "2024-03-05 00:00:00.000Z" = None /\
  Date_parse "2024-03-05" = None.
Proof. repeat split. Qed.

Example invalid_date_text :
  created_text rt_utc "yesterday" = "NaN-NaN-NaN".
Proof. reflexivity. Qed.

Example engine_specific_date_text :
  new_Date rt_lenient "2024-03-05 00:00:00.000Z" = Some 1709596800000 /\
  created_text rt_lenient "2024-03-05 00:00:00.000Z" = "05-03-2024" /\
  created_text rt_lenient "2024-03-05T00:00:00Z" = "05-03-2024".
Proof. repeat split. Qed.

Example stringify_small :
  JSON_stringify VNull = Some "null" /\
  JSON_stringify VUndefined = None /\
  JSON_stringify (VFile file_cat) = Some "{}" /\
  JSON_stringify (VObj [("gone", VUndefined)]) = Some "{}" /\
  JSON_stringify (VStr "a\b") =
    Some (String dquote ("a\\b" ++ String dquote "")) /\
  JSON_stringify (VObj [("k", VNull); ("f", VFile file_dog)]) =
    Some ("{" ++ String dquote ("k" ++ String dquote (":null," ++
          String dquote ("f" ++ String dquote ":{}}")))).
Proof. repeat split. Qed.

Example login_on_first_visit :
  userData ann_logged_in = Some user_ann /\
  heap ann_logged_in !! 0%nat = Some (with_themeMode "forest" record_ann) /\
  authStore ann_logged_in = {| as_token := "tok1"; isValid := true |}.
Proof. repeat split. Qed.

Example login_when_offline :
  login rt_utc pb_offline "a@x.com" "secret" first_visit =
    (first_visit, Throw (new_Error "Failed to fetch")).
Proof. reflexivity. Qed.

(** ** Strings *)

Lemma append_cons c (s t : string) : String c s ++ t = String c (s ++ t).
Proof. reflexivity. Qed.

Lemma append_empty (t : string) : "" ++ t = t.
Proof. reflexivity. Qed.

Lemma append_assoc (a b c : string) : (a ++ b) ++ c = a ++ (b ++ c).
Proof.
  induction a as [|x a IH]; [reflexivity|].
  rewrite !append_cons, IH. reflexivity.
Qed.

Lemma append_inv_head (a x y : string) : a ++ x = a ++ y -> x = y.
Proof.
  induction a as [|c a IH]; [done|].
  rewrite !append_cons. intros H. injection H as H. auto.
Qed.

(** ** [JSON.stringify] of profiles *)

Lemma unescape_escape c x : unescape (escape c ++ x) = Some (c, x).
Proof. destruct c as [[] [] [] [] [] [] [] []]; reflexivity. Qed.

Lemma quote_body_inj a : forall b x y,
  quote_body a ++ String dquote x = quote_body b ++ String dquote y ->
  a = b /\ x = y.
Proof.
  induction a as [|c a IH]; intros [|d b] x y H; simpl in H.
  - rewrite !append_empty in H. injection H as ->. done.
  - rewrite append_empty, append_assoc in H.
    apply (f_equal unescape) in H. rewrite unescape_escape in H. discriminate.
  - rewrite append_empty, append_assoc in H.
    apply (f_equal unescape) in H. rewrite unescape_escape in H. discriminate.
  - rewrite !append_assoc in H.
    pose proof (f_equal unescape H) as E. rewrite !unescape_escape in E.
    injection E as -> E. apply IH in E as [-> ->]. done.
Qed.

Lemma QuoteJSONString_inj a b x y :
  QuoteJSONString a ++ x = QuoteJSONString b ++ y -> a = b /\ x = y.
Proof.
  unfold QuoteJSONString.
  rewrite !append_cons, !append_assoc, !append_cons, !append_empty.
  intros H. injection H as H. by apply quote_body_inj.
Qed.

Lemma member_inj k v w x y :
  QuoteJSONString k ++ ":" ++ QuoteJSONString v ++ x =
  QuoteJSONString k ++ ":" ++ QuoteJSONString w ++ y ->
  v = w /\ x = y.
Proof.
  intros H. do 2 apply append_inv_head in H. by apply QuoteJSONString_inj.
Qed.

Lemma stringify_user_inj u h :
  JSON_stringify (UserType_to_value u) = JSON_stringify (UserType_to_value h) ->
  same_serialized_fields u h.
Proof.
  destruct u as [i1 t1 n1 e1 a1 c1 m1 p1 q1 o1 f1].
  destruct h as [i2 t2 n2 e2 a2 c2 m2 p2 q2 o2 f2].
  unfold JSON_stringify, UserType_to_value, same_serialized_fields.
  destruct f1, f2; simpl; intros H; apply (inj Some) in H;
    rewrite !append_assoc in H;
    apply (append_inv_head "{") in H;
    do 10 (apply member_inj in H as [-> H]; apply (append_inv_head ",") in H);
    do 2 apply append_inv_head in H;
    try discriminate H; repeat split; congruence.
Qed.

Lemma stringify_user_same u h :
  same_serialized_fields u h ->
  JSON_stringify (UserType_to_value u) = JSON_stringify (UserType_to_value h).
Proof.
  destruct u as [i1 t1 n1 e1 a1 c1 m1 p1 q1 o1 f1].
  destruct h as [i2 t2 n2 e2 a2 c2 m2 p2 q2 o2 f2].
  unfold same_serialized_fields. simpl.
  intros (-> & -> & -> & -> & -> & -> & -> & -> & -> & -> & Hf).
  destruct f1, f2; try reflexivity.
  - destruct Hf as [_ Hf]. by specialize (Hf eq_refl).
  - destruct Hf as [Hf _]. by specialize (Hf eq_refl).
Qed.

Lemma stringify_user_not_null u :
  JSON_stringify (UserType_to_value u) <> JSON_stringify VNull.
Proof. destruct u. simpl. intros H. apply (inj Some) in H. discriminate H. Qed.

(** ** Running [mapAuthDataToUser] *)

Lemma mapAuthDataToUser_run rt pb authData s r :
  heap s !! ad_record authData = Some r ->
  mapAuthDataToUser rt pb authData s =
    (mapped_state (ad_record authData) r s,
     Normal (mapped_user rt pb (ad_token authData) (activeTheme s) r)).
Proof.
  intros H.
  unfold mapAuthDataToUser, mapped_state, mapped_user, created_text,
    bind, read, gets, write_themeMode, ret.
  rewrite H.
  destruct (truthy (r_avatar r)), (String.eqb (r_themeMode r) "") eqn:E;
    repeat (progress (simpl; rewrite ?H, ?lookup_insert_eq, ?E)); reflexivity.
Qed.

Lemma mapAuthDataToUser_null rt pb authData s :
  heap s !! ad_record authData = None ->
  mapAuthDataToUser rt pb authData s =
    (s, Throw (new_TypeError (null_read_message rt "avatar"))).
Proof.
  intros H. unfold mapAuthDataToUser, bind, read. rewrite H. reflexivity.
Qed.

(** ** Dates that fall on the same day *)

Lemma YearFromTime_Day t1 t2 : Day t1 = Day t2 -> YearFromTime t1 = YearFromTime t2.
Proof. unfold YearFromTime. by intros ->. Qed.

Lemma MonthFromTime_Day t1 t2 : Day t1 = Day t2 -> MonthFromTime t1 = MonthFromTime t2.
Proof.
  intros H. unfold MonthFromTime, DayWithinYear, InLeapYear.
  by rewrite H, (YearFromTime_Day _ _ H).
Qed.

Lemma DateFromTime_Day t1 t2 : Day t1 = Day t2 -> DateFromTime t1 = DateFromTime t2.
Proof.
  intros H. unfold DateFromTime, DayWithinYear, InLeapYear.
  by rewrite H, (YearFromTime_Day _ _ H), (MonthFromTime_Day _ _ H).
Qed.

Lemma Day_same_day d off :
  0 <= off < msPerDay -> Day (d * msPerDay + off) = d.
Proof.
  intros H. unfold Day. symmetry. apply (Z.div_unique_pos _ _ d off); [done|lia].
Qed.

Lemma created_text_ann rt :
  0 <= LocalTZA rt 1709596800000 < msPerDay ->
  created_text rt "2024-03-05T00:00:00Z" = "05-03-2024".
Proof.
  intros H. unfold created_text.
  change (new_Date rt "2024-03-05T00:00:00Z") with (Some 1709596800000).
  unfold getDate, getMonth, getFullYear, LocalTime.
  assert (E : Day (1709596800000 + LocalTZA rt 1709596800000) = Day 1709596800000).
  { set (off := LocalTZA rt 1709596800000) in *. clearbody off.
    change (Day (19787 * msPerDay + off) = 19787). by apply Day_same_day. }
  rewrite (DateFromTime_Day _ _ E), (MonthFromTime_Day _ _ E), (YearFromTime_Day _ _ E).
  reflexivity.
Qed.

(** ** Invariants along a computation *)

Section Keeps.
Context {A B : Type} (I : State -> Prop).

Lemma keeps_ret (a : A) (Q : A -> Prop) : Q a -> keeps I (ret a) Q.
Proof. intros Ha s Hs. split; [done|]. intros a' [= <-]. done. Qed.

Lemma keeps_throw (e : Thrown) (Q : A -> Prop) : keeps I (throw e) Q.
Proof. intros s Hs. split; [done|]. discriminate. Qed.

Lemma keeps_gets (f : State -> A) : keeps I (gets f) (fun _ => True).
Proof. intros s Hs. split; done. Qed.

Lemma keeps_await (o : Outcome A) : keeps I (await o) (fun _ => True).
Proof. destruct o; [by apply keeps_ret | apply keeps_throw]. Qed.

Lemma keeps_bind (m : M A) (k : A -> M B) (Q : A -> Prop) (R : B -> Prop) :
  keeps I m Q -> (forall a, Q a -> keeps I (k a) R) -> keeps I (bind m k) R.
Proof.
  intros Hm Hk s Hs. specialize (Hm s Hs). unfold bind.
  destruct (m s) as [s' [a|e]]; simpl in Hm; destruct Hm as [Hi Hq].
  - apply Hk; auto.
  - split; [done|]. discriminate.
Qed.

Lemma keeps_try_catch (body : M A) (handler : Thrown -> M A) (Q R : A -> Prop) :
  keeps I body Q -> (forall a, Q a -> R a) ->
  (forall e, keeps I (handler e) R) ->
  keeps I (try_catch body handler) R.
Proof.
  intros Hb Hw Hh s Hs. specialize (Hb s Hs). unfold try_catch.
  destruct (body s) as [s' [a|e]]; simpl in Hb; destruct Hb as [Hi Hq].
  - split; [done|]. intros a' [= <-]. auto.
  - apply Hh; auto.
Qed.

End Keeps.

Lemma keeps_modify (I : State -> Prop) (f : State -> State) :
  (forall s, I s -> I (f s)) -> keeps I (modify f) (fun _ => True).
Proof. intros Hf s Hs. split; [by apply Hf | done]. Qed.

Lemma keeps_state {A} (I : State -> Prop) (m : M A) (Q : A -> Prop) s :
  I s -> keeps I m Q -> I (fst (m s)).
Proof. intros Hs Hm. apply (Hm s Hs). Qed.

(** ** Defaults *)

Lemma or_else_truthy a b : b <> "" -> or_else a b <> "".
Proof.
  intros Hb. unfold or_else. destruct a as [[|c x]|]; simpl; try done.
Qed.

(** ** Signing in *)

Lemma auth_call_resolved pb resp s :
  auth_call pb (Resolved resp) s =
    (received pb resp s,
     Normal {| ad_token := resp_token resp; ad_record := fresh (dom (heap s)) |}).
Proof. reflexivity. Qed.

Lemma received_lookup pb resp s :
  heap (received pb resp s) !! fresh (dom (heap s)) = Some (resp_record resp).
Proof. simpl. apply lookup_insert_eq. Qed.

Lemma mapped_state_lookup l r s :
  r_themeMode r = "" ->
  heap (mapped_state l r s) !! l = Some (with_themeMode (activeTheme s) r).
Proof. intros E. unfold mapped_state. rewrite E. simpl. apply lookup_insert_eq. Qed.

Lemma mapped_state_activeTheme l r s :
  activeTheme (mapped_state l r s) = activeTheme s.
Proof. unfold mapped_state. by destruct (String.eqb _ _). Qed.

(** Whoever signs in through an authentication call that resolves with
    [resp] gets back a reference to the record object, which by then holds
    the active theme if it came without one. *)
Lemma sign_in_mutates rt pb resp s :
  r_themeMode (resp_record resp) = "" ->
  exists s' authData,
    bind (auth_call pb (Resolved resp)) (fun authData =>
      bind (mapAuthDataToUser rt pb authData) (fun user =>
        bind (saveUserData user) (fun _ => ret authData))) s =
      (s', Normal authData) /\
    activeTheme s' = activeTheme s /\
    heap s' !! ad_record authData =
      Some (with_themeMode (activeTheme s) (resp_record resp)).
Proof.
  intros E. unfold bind at 1. rewrite auth_call_resolved.
  unfold bind at 1.
  rewrite (mapAuthDataToUser_run rt pb
             {| ad_token := resp_token resp; ad_record := fresh (dom (heap s)) |}
             _ _ (received_lookup pb resp s)).
  do 2 eexists. split; [reflexivity|]. cbn [fst snd]. simpl.
  split; [by rewrite mapped_state_activeTheme|].
  by rewrite mapped_state_lookup.
Qed.

(** * The specification, statement by statement *)

(** ** The user store *)

(** C1, as the code has it: when no profile is held, [updateUser] does not
    let the engine's [TypeError] through. The read of [userData.value.id]
    sits inside the [try] block, so the [catch] block re-raises it as a plain
    [Error] that carries the engine's message (or the fixed fallback text if
    that message is empty). The remote call is not made and the state is
    left as it was. *)
Theorem updateUser_without_profile rt pb newData s :
  userData s = None ->
  updateUser rt pb newData s =
    (s, Throw (new_Error
                 (or_else (Some (null_read_message rt "id"))
                    "Failed to update user data. Please try again."))).
Proof.
  intros H. unfold updateUser, try_catch, bind, userData_value_id.
  rewrite H. reflexivity.
Qed.

Lemma updateUser_without_profile_witness :
  updateUser rt_utc pb_ann (UpdateForm []) first_visit =
    (first_visit,
     Throw (new_Error "Cannot read properties of null (reading 'id')")).
Proof.
  apply (updateUser_without_profile rt_utc pb_ann (UpdateForm []) first_visit).
  reflexivity.
Defined.

(** C1 as stated fails: on a first visit, with no profile held, what
    [updateUser] raises is of class [Error], not [TypeError], and carries a
    readable message. *)
Lemma updateUser_without_profile_not_fatal :
  userData first_visit = None /\
  exists e,
    snd (updateUser rt_utc pb_ann (UpdateForm []) first_visit) = Throw e /\
    cls e = ClsError /\ cls e <> ClsTypeError /\
    message e = Some "Cannot read properties of null (reading 'id')".
Proof. split; [reflexivity|]. eexists. vm_compute. repeat split. discriminate. Qed.

(** C7: when a profile is held and the remote update resolves,
    [updateUser] returns [true] and leaves the state, and with it the held
    profile, exactly as it was: neither the argument nor the record the
    server answers with is merged into it. *)
Theorem updateUser_keeps_profile rt pb newData s u r :
  userData s = Some u ->
  pb_update pb (u_id u) newData = Resolved r ->
  updateUser rt pb newData s = (s, Normal true).
Proof.
  intros Hu Hr. unfold updateUser, try_catch, bind, userData_value_id.
  rewrite Hu, Hr. reflexivity.
Qed.

Lemma updateUser_keeps_profile_witness :
  userData ann_logged_in = Some user_ann /\
  updateUser rt_utc pb_ann (UpdateUser user_ann) ann_logged_in =
    (ann_logged_in, Normal true).
Proof.
  split; [reflexivity|].
  apply (updateUser_keeps_profile rt_utc pb_ann _ ann_logged_in user_ann record_ann);
    reflexivity.
Defined.

(** C4, as the code has it: [userDataHasEdited] compares the two
    [JSON.stringify] texts. For a candidate with the shape of a profile it
    answers [false] exactly when a profile is held, every string field of
    the candidate equals that of the held profile, and both or neither have
    a pending avatar file; in particular it answers [false] for the held
    profile itself and [true] when any string field differs. It never
    changes the state. *)
Theorem userDataHasEdited_compares_serializations u s :
  exists b,
    userDataHasEdited (UserType_to_value u) s = (s, Normal b) /\
    (b = false <-> exists h, userData s = Some h /\ same_serialized_fields u h).
Proof.
  eexists. split; [reflexivity|].
  unfold userData_value. destruct (userData s) as [h|].
  - pose proof (stringify_user_inj u h) as Hinj.
    pose proof (stringify_user_same u h) as Hsame.
    destruct (JSON_stringify (UserType_to_value u)) as [x|],
             (JSON_stringify (UserType_to_value h)) as [y|]; simpl.
    + rewrite negb_false_iff, String.eqb_eq. split.
      * intros ->. exists h. split; [done|]. by apply Hinj.
      * intros (h' & [= <-] & Hf). by injection (Hsame Hf).
    + split; [discriminate|]. intros (h' & [= <-] & Hf). by specialize (Hsame Hf).
    + split; [discriminate|]. intros (h' & [= <-] & Hf). by specialize (Hsame Hf).
    + split; [intros _|done]. exists h. split; [done|]. by apply Hinj.
  - pose proof (stringify_user_not_null u) as Hn.
    destruct (JSON_stringify (UserType_to_value u)) as [x|]; simpl in *.
    + split; [|by intros (h & [=] & _)].
      rewrite negb_false_iff, String.eqb_eq. intros ->. done.
    + split; [discriminate|]. by intros (h & [=] & _).
Qed.

(** C4 as stated fails, in both directions. A candidate that differs from
    the held profile in the pending avatar file alone (another file) is
    reported as unchanged; and a candidate that is deep-equal to the held
    profile but lists its properties in another order is reported as
    changed. *)
Lemma userDataHasEdited_not_deep_equality :
  (deep_equal (UserType_to_value (with_avatarFile (Some file_dog) user_ann))
              (userData_value ann_with_cat) = false /\
   snd (userDataHasEdited
          (UserType_to_value (with_avatarFile (Some file_dog) user_ann))
          ann_with_cat) = Normal false) /\
  (deep_equal ann_name_first (userData_value ann_logged_in) = true /\
   snd (userDataHasEdited ann_name_first ann_logged_in) = Normal true).
Proof. vm_compute. done. Qed.

(** ** The theme store *)

(** C2, as the code has it: [changeTheme] flips the active theme in memory
    only. ['forest'] becomes ['winter'], anything else becomes ['forest'];
    [localStorage] and the held profile are left as they were. *)
Theorem changeTheme_in_memory s :
  exists s',
    changeTheme s = (s', Normal tt) /\
    activeTheme s' =
      (if String.eqb (activeTheme s) "forest" then "winter" else "forest") /\
    localStorage s' = localStorage s /\
    userData s' = userData s.
Proof. eexists. unfold changeTheme, bind, gets, modify. simpl. done. Qed.

(** C2 as stated fails: after [setTheme] on a first visit the ['theme'] key
    holds ['forest']; [changeTheme] then makes ['winter'] the active theme
    while the key still holds ['forest']. *)
Lemma changeTheme_not_persisted :
  let s := fst (setTheme first_visit) in
  let s' := fst (changeTheme s) in
  localStorage s !! "theme" = Some "forest" /\
  activeTheme s' = "winter" /\
  localStorage s' !! "theme" = Some "forest" /\
  localStorage s' !! "theme" <> Some (activeTheme s').
Proof. vm_compute. repeat split. discriminate. Qed.

(** C8: on the two known theme names, calling [changeTheme] twice gives
    back the state it started from, and so the active theme. *)
Theorem changeTheme_involution s :
  activeTheme s = "forest" \/ activeTheme s = "winter" ->
  fst (changeTheme (fst (changeTheme s))) = s.
Proof.
  intros H. unfold changeTheme, bind, gets, modify. simpl.
  destruct s as [u t ls a h]. simpl in *.
  destruct H as [-> | ->]; reflexivity.
Qed.

Lemma changeTheme_involution_witness :
  fst (changeTheme (fst (changeTheme first_visit))) = first_visit.
Proof. apply (changeTheme_involution first_visit). left. reflexivity. Defined.

(** C9: [setTheme] always ends with the ['theme'] key of [localStorage]
    holding the active theme it has resolved, and never throws; when no
    profile is held and the key is absent, that theme is ['forest']. *)
Theorem setTheme_default_and_persist s :
  localStorage (fst (setTheme s)) !! "theme" = Some (activeTheme (fst (setTheme s))) /\
  snd (setTheme s) = Normal tt /\
  (userData s = None -> localStorage s !! "theme" = None ->
   activeTheme (fst (setTheme s)) = "forest" /\
   localStorage (fst (setTheme s)) !! "theme" = Some "forest").
Proof.
  unfold setTheme, bind, gets, modify, localStorage_getItem, localStorage_setItem.
  destruct (userData s) as [u|] eqn:Hu; simpl.
  - rewrite lookup_insert_eq. split; [done|]. split; [done|]. discriminate.
  - rewrite lookup_insert_eq. split; [done|]. split; [done|].
    intros _ Hk. by rewrite Hk.
Qed.

Lemma setTheme_default_and_persist_witness :
  activeTheme (fst (setTheme first_visit)) = "forest" /\
  localStorage (fst (setTheme first_visit)) !! "theme" = Some "forest".
Proof.
  apply (setTheme_default_and_persist first_visit); reflexivity.
Defined.

(** ** The authentication store *)

(** C3, as the code has it: the creation date is taken in the local time of
    the engine. For Ann's record, created at 2024-03-05T00:00:00Z, and the
    token ["tok1"], [mapAuthDataToUser] returns the profile of the scenario,
    with [created] equal to ["05-03-2024"], whenever local time is at or
    ahead of UTC (by less than a day) at that instant. *)
Theorem mapAuthDataToUser_ann rt pb s l :
  heap s !! l = Some record_ann ->
  0 <= LocalTZA rt 1709596800000 < msPerDay ->
  Date_parse "2024-03-05T00:00:00Z" = Some 1709596800000 /\
  exists s',
    mapAuthDataToUser rt pb {| ad_token := "tok1"; ad_record := l |} s =
      (s', Normal {| u_id := "u1";
                     u_token := "tok1";
                     u_name := "Ann";
                     u_email := "a@x.com";
                     u_avatar := "";
                     u_created := "05-03-2024";
                     u_themeMode := activeTheme s;
                     u_password := "";
                     u_passwordConfirm := "";
                     u_oldPassword := "";
                     u_avatarFile := None |}).
Proof.
  intros Hl Htz. split; [reflexivity|].
  eexists. rewrite (mapAuthDataToUser_run rt pb (mkAuthData "tok1" l) s record_ann Hl).
  unfold mapped_user. simpl. by rewrite created_text_ann.
Qed.

Lemma mapAuthDataToUser_ann_witness :
  exists s',
    mapAuthDataToUser rt_utc pb_ann ann_authData ann_received =
      (s', Normal user_ann).
Proof.
  apply (mapAuthDataToUser_ann rt_utc pb_ann ann_received 0%nat).
  - reflexivity.
  - simpl. unfold msPerDay. lia.
Defined.

(** C3 as stated fails: on an engine whose local time is five hours behind
    UTC, the same record and token give [created] equal to
    ["04-03-2024"]. *)
Lemma mapAuthDataToUser_ann_west_of_utc :
  heap ann_received !! ad_record ann_authData = Some record_ann /\
  exists s' u,
    mapAuthDataToUser rt_new_york pb_ann ann_authData ann_received = (s', Normal u) /\
    u_created u = "04-03-2024" /\
    u_created u <> "05-03-2024".
Proof.
  split; [reflexivity|]. do 2 eexists. split; [vm_compute; reflexivity|].
  split; [reflexivity|discriminate].
Qed.

(** C5, as the code has it: for a record whose theme is the empty string,
    [mapAuthDataToUser] gives a profile whose theme is the active theme of
    the theme store, and for any other record the record's theme,
    unchanged. The theme of the profile is therefore not empty whenever the
    active theme is not empty. *)
Theorem mapAuthDataToUser_theme_substituted rt pb authData s r :
  heap s !! ad_record authData = Some r ->
  exists s' u,
    mapAuthDataToUser rt pb authData s = (s', Normal u) /\
    (r_themeMode r = "" -> u_themeMode u = activeTheme s) /\
    (r_themeMode r <> "" -> u_themeMode u = r_themeMode r) /\
    (activeTheme s <> "" -> u_themeMode u <> "").
Proof.
  intros Hr. rewrite (mapAuthDataToUser_run _ _ _ _ _ Hr).
  do 2 eexists. split; [done|].
  simpl. destruct (String.eqb (r_themeMode r) "") eqn:E.
  - apply String.eqb_eq in E. done.
  - apply String.eqb_neq in E. done.
Qed.

Lemma mapAuthDataToUser_theme_substituted_witness :
  exists s' u,
    mapAuthDataToUser rt_utc pb_ann ann_authData ann_received = (s', Normal u) /\
    (r_themeMode record_ann = "" -> u_themeMode u = activeTheme ann_received) /\
    (r_themeMode record_ann <> "" -> u_themeMode u = r_themeMode record_ann) /\
    (activeTheme ann_received <> "" -> u_themeMode u <> "").
Proof.
  apply (mapAuthDataToUser_theme_substituted rt_utc pb_ann ann_authData
           ann_received record_ann).
  reflexivity.
Defined.

(** C5 as stated fails: the active theme can be the empty string. Once a
    profile without theme has been saved with [saveUserData] and [setTheme]
    has been called, Ann's record, which has no theme of its own, is turned
    into a profile whose theme is empty. *)
Lemma mapAuthDataToUser_theme_empty :
  reachable themeless_received /\
  activeTheme themeless_received = "" /\
  heap themeless_received !! ad_record ann_authData = Some record_ann /\
  r_themeMode record_ann = "" /\
  exists s' u,
    mapAuthDataToUser rt_utc pb_ann ann_authData themeless_received =
      (s', Normal u) /\
    u_themeMode u = "".
Proof.
  split; [apply reach_auth_call, reach_exec, reach_exec, reach_initial|].
  repeat (split; [reflexivity|]).
  do 2 eexists. split; [vm_compute; reflexivity|reflexivity].
Qed.

(** C6: whatever the state, [authRefresh] returns without throwing and
    leaves no profile, a cleared [pb.authStore] and no ['pocketbase_auth']
    key in [localStorage], both when the session is not valid and when the
    remote refresh is rejected. *)
Theorem authRefresh_fails_closed rt pb s :
  isValid (authStore s) = false \/ (exists e, pb_authRefresh pb = Rejected e) ->
  exists s',
    authRefresh rt pb s = (s', Normal tt) /\
    userData s' = None /\
    authStore s' = {| as_token := ""; isValid := false |} /\
    localStorage s' !! "pocketbase_auth" = None.
Proof.
  intros H. exists (signed_out s).
  split; [|repeat split; simpl; apply lookup_delete_eq].
  unfold authRefresh, try_catch, bind, gets.
  destruct (isValid (authStore s)) eqn:Hv; simpl.
  - destruct H as [H | [e H]]; [discriminate|].
    unfold auth_call, bind. rewrite H. reflexivity.
  - reflexivity.
Qed.

Lemma authRefresh_fails_closed_witness :
  (isValid (authStore ann_logged_in) = true /\
   exists s',
     authRefresh rt_utc pb_offline ann_logged_in = (s', Normal tt) /\
     userData s' = None /\
     authStore s' = {| as_token := ""; isValid := false |} /\
     localStorage s' !! "pocketbase_auth" = None) /\
  (isValid (authStore first_visit) = false /\
   exists s',
     authRefresh rt_utc pb_ann first_visit = (s', Normal tt) /\
     userData s' = None /\
     authStore s' = {| as_token := ""; isValid := false |} /\
     localStorage s' !! "pocketbase_auth" = None).
Proof.
  split; (split; [reflexivity|]).
  - apply (authRefresh_fails_closed rt_utc pb_offline ann_logged_in).
    right. exists offline. reflexivity.
  - apply (authRefresh_fails_closed rt_utc pb_ann first_visit).
    left. reflexivity.
Defined.

(** C10: [mapAuthDataToUser] writes into the record object it is given.
    When the record's theme is the empty string, the object holds the
    active theme afterwards, and this is the object that [login],
    [loginWithGoogle] and [createAccount] hand back to their caller inside
    the authentication result. *)
Theorem mapAuthDataToUser_mutates_record rt pb s :
  (forall authData r,
     heap s !! ad_record authData = Some r -> r_themeMode r = "" ->
     heap (fst (mapAuthDataToUser rt pb authData s)) !! ad_record authData =
       Some (with_themeMode (activeTheme s) r)) /\
  (forall email password resp,
     pb_authWithPassword pb email password = Resolved resp ->
     r_themeMode (resp_record resp) = "" ->
     exists s' authData,
       login rt pb email password s = (s', Normal authData) /\
       heap s' !! ad_record authData =
         Some (with_themeMode (activeTheme s) (resp_record resp))) /\
  (forall resp,
     pb_authWithOAuth2 pb "google" = Resolved resp ->
     r_themeMode (resp_record resp) = "" ->
     exists s' authData,
       loginWithGoogle rt pb s = (s', Normal authData) /\
       heap s' !! ad_record authData =
         Some (with_themeMode (activeTheme s) (resp_record resp))) /\
  (forall newUser resp,
     pb_create pb {| c_email := n_email newUser;
                     c_emailVisibility := false;
                     c_name := n_name newUser;
                     c_themeMode := n_themeMode newUser;
                     c_password := n_password newUser;
                     c_passwordConfirm := n_passwordConfirm newUser |} = Resolved tt ->
     pb_authWithPassword pb (n_email newUser) (n_password newUser) = Resolved resp ->
     r_themeMode (resp_record resp) = "" ->
     exists s' authData,
       createAccount rt pb newUser s = (s', Normal authData) /\
       heap s' !! ad_record authData =
         Some (with_themeMode (activeTheme s) (resp_record resp))).
Proof.
  repeat split.
  - intros authData r Hr E.
    rewrite (mapAuthDataToUser_run _ _ _ _ _ Hr). simpl.
    by apply mapped_state_lookup.
  - intros email password resp Ho E.
    destruct (sign_in_mutates rt pb resp s E) as (s' & authData & Hrun & _ & Hl).
    exists s', authData. split; [|done].
    unfold login, try_catch. rewrite Ho, Hrun. reflexivity.
  - intros resp Ho E.
    destruct (sign_in_mutates rt pb resp s E) as (s' & authData & Hrun & _ & Hl).
    exists s', authData. split; [|done].
    unfold loginWithGoogle, try_catch. rewrite Ho, Hrun. reflexivity.
  - intros newUser resp Hc Ho E.
    destruct (sign_in_mutates rt pb resp s E) as (s1 & authData & Hrun & Ht & Hl).
    assert (Hlogin : login rt pb (n_email newUser) (n_password newUser) s =
                     (s1, Normal authData)).
    { unfold login, try_catch. rewrite Ho, Hrun. reflexivity. }
    unfold createAccount, try_catch, bind at 1. rewrite Hc. cbn [await ret].
    unfold bind at 1. rewrite Hlogin.
    unfold bind at 1. rewrite (mapAuthDataToUser_run _ _ _ _ _ Hl).
    do 2 eexists. split; [reflexivity|]. simpl.
    unfold mapped_state. destruct (String.eqb _ _); simpl; [|done].
    rewrite lookup_insert_eq, Ht. by destruct (resp_record resp).
Qed.

Lemma mapAuthDataToUser_mutates_record_witness :
  r_themeMode record_ann = "" /\
  exists s' authData,
    login rt_utc pb_ann "a@x.com" "secret" first_visit = (s', Normal authData) /\
    heap s' !! ad_record authData = Some (with_themeMode "forest" record_ann).
Proof.
  split; [reflexivity|].
  apply (proj1 (proj2 (mapAuthDataToUser_mutates_record rt_utc pb_ann first_visit))
           "a@x.com" "secret" response_ann); reflexivity.
Defined.

(** * Further properties of the stores *)

(** ** Messages *)

Lemma truthy_nonempty m : truthy m = true <-> m <> "".
Proof. destruct m; simpl; split; done. Qed.

Lemma message_or_truthy e fallback :
  fallback <> "" -> truthy (message_or e fallback) = true.
Proof.
  intros Hf. unfold message_or.
  destruct (message e) as [m|]; [destruct (truthy m) eqn:E; [done|]|];
    by apply truthy_nonempty.
Qed.

Lemma message_or_new_Error m fallback :
  truthy m = true -> message_or (new_Error m) fallback = m.
Proof. intros H. unfold message_or. simpl. by rewrite H. Qed.

Lemma new_Error_normalized m : m <> "" -> normalized (new_Error m).
Proof. intros H. split; [done|]. by exists m. Qed.

Lemma rethrown_normalized e fallback :
  fallback <> "" -> normalized (new_Error (message_or e fallback)).
Proof.
  intros H. apply new_Error_normalized, truthy_nonempty. by apply message_or_truthy.
Qed.

(** ** Signing in, step by step *)

Lemma sign_in_run rt pb resp s :
  bind (auth_call pb (Resolved resp)) (fun authData =>
    bind (mapAuthDataToUser rt pb authData) (fun user =>
      bind (saveUserData user) (fun _ => ret authData))) s =
    (signed_in rt pb resp s,
     Normal {| ad_token := resp_token resp; ad_record := fresh (dom (heap s)) |}).
Proof.
  unfold bind at 1. rewrite auth_call_resolved.
  unfold bind at 1.
  rewrite (mapAuthDataToUser_run rt pb
             {| ad_token := resp_token resp; ad_record := fresh (dom (heap s)) |}
             _ _ (received_lookup pb resp s)).
  reflexivity.
Qed.

Lemma sign_in_rejected rt pb e s :
  bind (auth_call pb (Rejected e)) (fun authData =>
    bind (mapAuthDataToUser rt pb authData) (fun user =>
      bind (saveUserData user) (fun _ => ret authData))) s = (s, Throw e).
Proof. reflexivity. Qed.

Lemma login_resolved rt pb email password resp s :
  pb_authWithPassword pb email password = Resolved resp ->
  login rt pb email password s =
    (signed_in rt pb resp s,
     Normal {| ad_token := resp_token resp; ad_record := fresh (dom (heap s)) |}).
Proof. intros H. unfold login, try_catch. by rewrite H, sign_in_run. Qed.

Lemma login_rejected rt pb email password e s :
  pb_authWithPassword pb email password = Rejected e ->
  login rt pb email password s =
    (s, Throw (new_Error
                 (message_or e "Login failed. Please check your credentials."))).
Proof. intros H. unfold login, try_catch. by rewrite H, sign_in_rejected. Qed.

Lemma signed_in_userData rt pb resp s :
  userData (signed_in rt pb resp s) =
    Some (mapped_user rt pb (resp_token resp) (activeTheme s) (resp_record resp)).
Proof. reflexivity. Qed.

Lemma signed_in_frame rt pb resp s :
  activeTheme (signed_in rt pb resp s) = activeTheme s /\
  localStorage (signed_in rt pb resp s) =
    <["pocketbase_auth" := pb_session_text pb resp]> (localStorage s).
Proof.
  unfold signed_in, mapped_state. by destruct (String.eqb _ _).
Qed.

Lemma signed_in_other_keys rt pb resp s key :
  key <> "pocketbase_auth" ->
  localStorage (signed_in rt pb resp s) !! key = localStorage s !! key.
Proof.
  intros Hk. rewrite (proj2 (signed_in_frame rt pb resp s)).
  rewrite lookup_insert_ne; [done|congruence].
Qed.

(** X1: when the remote check of the credentials succeeds, [login] returns
    the authentication result and the held profile is replaced, whatever it
    was, by one made from the new record: its token is the session token,
    its id, name and email are the record's, and its form-only fields are
    empty. The active theme is not touched, and neither is any key of
    [localStorage] other than ['pocketbase_auth'], which belongs to the
    client. *)
Theorem login_success rt pb email password resp s :
  pb_authWithPassword pb email password = Resolved resp ->
  exists s' authData u,
    login rt pb email password s = (s', Normal authData) /\
    ad_token authData = resp_token resp /\
    userData s' = Some u /\
    u_token u = resp_token resp /\
    u_id u = r_id (resp_record resp) /\
    u_name u = r_name (resp_record resp) /\
    u_email u = r_email (resp_record resp) /\
    transient_empty u /\
    activeTheme s' = activeTheme s /\
    (forall key, key <> "pocketbase_auth" ->
       localStorage s' !! key = localStorage s !! key).
Proof.
  intros H. rewrite (login_resolved _ _ _ _ _ _ H).
  do 3 eexists. split; [reflexivity|]. split; [reflexivity|].
  split; [apply signed_in_userData|].
  repeat split; [apply signed_in_frame|].
  intros key Hk. by apply signed_in_other_keys.
Qed.

Lemma login_success_witness :
  exists s' authData u,
    login rt_utc pb_bob "b@x.com" "pw" ann_logged_in = (s', Normal authData) /\
    ad_token authData = "tok2" /\
    userData s' = Some u /\
    u_token u = "tok2" /\
    u_id u = "u2" /\
    u_name u = "Bob" /\
    u_email u = "b@x.com" /\
    transient_empty u /\
    activeTheme s' = activeTheme ann_logged_in /\
    (forall key, key <> "pocketbase_auth" ->
       localStorage s' !! key = localStorage ann_logged_in !! key).
Proof.
  apply (login_success rt_utc pb_bob "b@x.com" "pw" response_bob ann_logged_in).
  reflexivity.
Defined.

(** X2: when the remote authentication is rejected, [login] and
    [loginWithGoogle] leave the whole state as it was and raise an [Error]
    with the message of the rejection, or with their own fixed text when
    the rejection has no message. *)
Theorem sign_in_rejected_unchanged rt pb s :
  (forall email password e,
     pb_authWithPassword pb email password = Rejected e ->
     login rt pb email password s =
       (s, Throw (new_Error
                    (message_or e "Login failed. Please check your credentials.")))) /\
  (forall e,
     pb_authWithOAuth2 pb "google" = Rejected e ->
     loginWithGoogle rt pb s =
       (s, Throw (new_Error
                    (message_or e "Google login failed. Please try again.")))).
Proof.
  split.
  - intros email password e H. by apply login_rejected.
  - intros e H. unfold loginWithGoogle, try_catch. by rewrite H, sign_in_rejected.
Qed.

Lemma sign_in_rejected_unchanged_witness :
  login rt_utc pb_offline "a@x.com" "secret" ann_logged_in =
    (ann_logged_in, Throw (new_Error "Failed to fetch")) /\
  loginWithGoogle rt_utc pb_silent ann_logged_in =
    (ann_logged_in, Throw (new_Error "Google login failed. Please try again.")).
Proof.
  split.
  - apply (proj1 (sign_in_rejected_unchanged rt_utc pb_offline ann_logged_in)
             "a@x.com" "secret" offline). reflexivity.
  - apply (proj2 (sign_in_rejected_unchanged rt_utc pb_silent ann_logged_in) silent).
    reflexivity.
Defined.

(** X3: when the remote creation of the record is rejected,
    [createAccount] leaves the whole state as it was, does not go on to log
    in, and raises an [Error] with the message of the rejection or the text
    'Account creation failed. Please try again.'. *)
Theorem createAccount_create_rejected rt pb newUser e s :
  pb_create pb {| c_email := n_email newUser;
                  c_emailVisibility := false;
                  c_name := n_name newUser;
                  c_themeMode := n_themeMode newUser;
                  c_password := n_password newUser;
                  c_passwordConfirm := n_passwordConfirm newUser |} = Rejected e ->
  createAccount rt pb newUser s =
    (s, Throw (new_Error
                 (message_or e "Account creation failed. Please try again."))).
Proof.
  intros H. unfold createAccount, try_catch, bind at 1. rewrite H. reflexivity.
Qed.

Lemma createAccount_create_rejected_witness :
  createAccount rt_utc pb_silent new_ann first_visit =
    (first_visit, Throw (new_Error "Account creation failed. Please try again.")).
Proof.
  apply (createAccount_create_rejected rt_utc pb_silent new_ann silent first_visit).
  reflexivity.
Defined.

Lemma with_themeMode_twice t r :
  with_themeMode t (with_themeMode t r) = with_themeMode t r.
Proof. reflexivity. Qed.

Lemma mapped_user_with_theme rt pb tok t r :
  getURL_ignores_theme pb ->
  r_themeMode r = "" ->
  mapped_user rt pb tok t (with_themeMode t r) = mapped_user rt pb tok t r.
Proof.
  intros Hg E. unfold mapped_user. simpl. rewrite E, Hg. simpl.
  by destruct (String.eqb t "").
Qed.

Lemma signed_in_lookup rt pb resp s :
  heap (signed_in rt pb resp s) !! fresh (dom (heap s)) =
    Some (if String.eqb (r_themeMode (resp_record resp)) ""
          then with_themeMode (activeTheme s) (resp_record resp)
          else resp_record resp).
Proof.
  unfold signed_in, mapped_state.
  destruct (String.eqb _ _); simpl; apply lookup_insert_eq.
Qed.

(** Normalizing the record of a finished sign-in once more changes
    nothing. *)
Lemma signed_in_again rt pb resp s :
  getURL_ignores_theme pb ->
  let authData := {| ad_token := resp_token resp;
                     ad_record := fresh (dom (heap s)) |} in
  bind (mapAuthDataToUser rt pb authData) (fun user =>
    bind (saveUserData user) (fun _ => ret authData)) (signed_in rt pb resp s) =
    (signed_in rt pb resp s, Normal authData).
Proof.
  intros Hg authData. unfold bind at 1.
  rewrite (mapAuthDataToUser_run rt pb authData _ _ (signed_in_lookup rt pb resp s)).
  destruct (signed_in_frame rt pb resp s) as [Ht _]. rewrite Ht.
  unfold bind, saveUserData, modify, ret. f_equal.
  destruct (String.eqb (r_themeMode (resp_record resp)) "") eqn:E.
  - apply String.eqb_eq in E. rewrite (mapped_user_with_theme _ _ _ _ _ Hg E).
    unfold mapped_state. simpl.
    destruct (String.eqb (activeTheme s) "") eqn:Et.
    + unfold signed_in, mapped_state. rewrite (proj2 (String.eqb_eq _ _) E).
      simpl. rewrite insert_insert_eq. reflexivity.
    + unfold signed_in, mapped_state. rewrite (proj2 (String.eqb_eq _ _) E).
      reflexivity.
  - unfold mapped_state. rewrite E. reflexivity.
Qed.

(** X4: once the record has been created, [createAccount] is [login] with
    the new credentials: same final state, same result, and, when the login
    is rejected, the very error of [login] (the text of [createAccount] is
    never used then). The second normalization and save it performs change
    nothing, as long as the URL of a file does not depend on the theme
    stored in the record. *)
Theorem createAccount_is_login rt pb newUser s :
  pb_create pb {| c_email := n_email newUser;
                  c_emailVisibility := false;
                  c_name := n_name newUser;
                  c_themeMode := n_themeMode newUser;
                  c_password := n_password newUser;
                  c_passwordConfirm := n_passwordConfirm newUser |} = Resolved tt ->
  getURL_ignores_theme pb ->
  createAccount rt pb newUser s =
    login rt pb (n_email newUser) (n_password newUser) s.
Proof.
  intros Hc Hg. unfold createAccount, try_catch, bind at 1. rewrite Hc.
  cbn [await ret]. unfold bind at 1.
  destruct (pb_authWithPassword pb (n_email newUser) (n_password newUser))
    as [resp|e] eqn:Ho.
  - rewrite (login_resolved _ _ _ _ _ _ Ho).
    by rewrite (signed_in_again rt pb resp s Hg).
  - rewrite (login_rejected _ _ _ _ _ _ Ho).
    unfold throw. by rewrite message_or_new_Error by by apply message_or_truthy.
Qed.

Lemma createAccount_is_login_witness :
  createAccount rt_utc pb_ann new_ann first_visit =
    login rt_utc pb_ann "a@x.com" "secret" first_visit /\
  createAccount rt_utc pb_no_login new_ann first_visit =
    (first_visit, Throw (new_Error "Failed to fetch")).
Proof.
  split.
  - apply (createAccount_is_login rt_utc pb_ann new_ann first_visit); [reflexivity|].
    intros r theme file thumb. reflexivity.
  - rewrite (createAccount_is_login rt_utc pb_no_login new_ann first_visit);
      [reflexivity|reflexivity|].
    intros r theme file thumb. reflexivity.
Defined.

(** ** Refreshing and ending the session *)

Lemma logout_run s : logout s = (signed_out s, Normal tt).
Proof. reflexivity. Qed.

Lemma authRefresh_resolved rt pb resp s :
  isValid (authStore s) = true ->
  pb_authRefresh pb = Resolved resp ->
  authRefresh rt pb s = (signed_in rt pb resp s, Normal tt).
Proof.
  intros Hv Ho.
  unfold authRefresh, try_catch, bind at 1, gets. rewrite Hv. cbn [negb].
  rewrite Ho. unfold bind at 1. rewrite auth_call_resolved.
  unfold bind at 1.
  rewrite (mapAuthDataToUser_run rt pb
             {| ad_token := resp_token resp; ad_record := fresh (dom (heap s)) |}
             _ _ (received_lookup pb resp s)).
  reflexivity.
Qed.

Lemma authRefresh_failed rt pb s :
  isValid (authStore s) = false \/ (exists e, pb_authRefresh pb = Rejected e) ->
  authRefresh rt pb s = (signed_out s, Normal tt).
Proof.
  intros H. unfold authRefresh, try_catch, bind at 1, gets.
  destruct (isValid (authStore s)) eqn:Hv; cbn [negb]; [|reflexivity].
  destruct H as [H | [e H]]; [discriminate|]. rewrite H. reflexivity.
Qed.

(** X5: [authRefresh] never throws. It ends either signed in with the
    refreshed record (only when the session was valid and the refresh
    resolved) or signed out. *)
Theorem authRefresh_outcomes rt pb s :
  snd (authRefresh rt pb s) = Normal tt /\
  ((exists resp,
      isValid (authStore s) = true /\ pb_authRefresh pb = Resolved resp /\
      fst (authRefresh rt pb s) = signed_in rt pb resp s) \/
   fst (authRefresh rt pb s) = signed_out s).
Proof.
  destruct (isValid (authStore s)) eqn:Hv.
  - destruct (pb_authRefresh pb) as [resp|e] eqn:Ho.
    + rewrite (authRefresh_resolved rt pb resp s Hv Ho).
      split; [reflexivity|]. left. by exists resp.
    + rewrite (authRefresh_failed rt pb s) by (right; by exists e).
      split; [reflexivity|]. by right.
  - rewrite (authRefresh_failed rt pb s) by by left.
    split; [reflexivity|]. by right.
Qed.

(** X6: with a valid session and a refresh that resolves, [authRefresh]
    replaces the held profile by one made from the refreshed record and its
    token, and leaves alone the active theme and every key of
    [localStorage] other than the client's ['pocketbase_auth']. *)
Theorem authRefresh_success rt pb resp s :
  isValid (authStore s) = true ->
  pb_authRefresh pb = Resolved resp ->
  exists s' u,
    authRefresh rt pb s = (s', Normal tt) /\
    userData s' = Some u /\
    u_token u = resp_token resp /\
    u_id u = r_id (resp_record resp) /\
    u_name u = r_name (resp_record resp) /\
    u_email u = r_email (resp_record resp) /\
    transient_empty u /\
    activeTheme s' = activeTheme s /\
    (forall key, key <> "pocketbase_auth" ->
       localStorage s' !! key = localStorage s !! key).
Proof.
  intros Hv Ho. exists (signed_in rt pb resp s). eexists.
  split; [by apply authRefresh_resolved|].
  split; [apply signed_in_userData|]. repeat split; [apply signed_in_frame|].
  intros key Hk. by apply signed_in_other_keys.
Qed.

Lemma authRefresh_success_witness :
  exists s' u,
    authRefresh rt_utc pb_bob ann_logged_in = (s', Normal tt) /\
    userData s' = Some u /\
    u_token u = "tok2" /\
    u_id u = "u2" /\
    u_name u = "Bob" /\
    u_email u = "b@x.com" /\
    transient_empty u /\
    activeTheme s' = activeTheme ann_logged_in /\
    (forall key, key <> "pocketbase_auth" ->
       localStorage s' !! key = localStorage ann_logged_in !! key).
Proof.
  apply (authRefresh_success rt_utc pb_bob response_bob ann_logged_in); reflexivity.
Defined.

(** X7: when the session is not valid or the refresh is rejected,
    [authRefresh] does exactly what [logout] does. *)
Theorem authRefresh_failure_is_logout rt pb s :
  isValid (authStore s) = false \/ (exists e, pb_authRefresh pb = Rejected e) ->
  authRefresh rt pb s = logout s.
Proof. intros H. by rewrite logout_run, authRefresh_failed. Qed.

Lemma authRefresh_failure_is_logout_witness :
  authRefresh rt_utc pb_offline ann_logged_in = logout ann_logged_in /\
  authRefresh rt_utc pb_ann first_visit = logout first_visit.
Proof.
  split.
  - apply (authRefresh_failure_is_logout rt_utc pb_offline ann_logged_in).
    right. by exists offline.
  - apply (authRefresh_failure_is_logout rt_utc pb_ann first_visit). by left.
Defined.

(** X8: [logout] never throws; afterwards no profile is held,
    [pb.authStore] is cleared and the ['pocketbase_auth'] key is gone, while
    every other key of [localStorage], the active theme and the record
    objects are as before. Logging out again changes nothing. *)
Theorem logout_effect s :
  exists s',
    logout s = (s', Normal tt) /\
    userData s' = None /\
    authStore s' = {| as_token := ""; isValid := false |} /\
    localStorage s' !! "pocketbase_auth" = None /\
    (forall key, key <> "pocketbase_auth" ->
       localStorage s' !! key = localStorage s !! key) /\
    activeTheme s' = activeTheme s /\
    heap s' = heap s /\
    logout s' = (s', Normal tt).
Proof.
  exists (signed_out s). split; [reflexivity|].
  split; [reflexivity|]. split; [reflexivity|].
  split; [apply lookup_delete_eq|].
  split; [intros key Hk; simpl; by apply lookup_delete_ne|].
  split; [reflexivity|]. split; [reflexivity|].
  rewrite logout_run. f_equal. unfold signed_out. simpl.
  by rewrite delete_delete_eq.
Qed.

(** ** Operations that only talk to the backend *)

Lemma updateUser_run rt pb newData s :
  updateUser rt pb newData s =
    (s, match userData s with
        | None =>
            Throw (new_Error
                     (message_or (new_TypeError (null_read_message rt "id"))
                        "Failed to update user data. Please try again."))
        | Some u =>
            match pb_update pb (u_id u) newData with
            | Resolved _ => Normal true
            | Rejected e =>
                Throw (new_Error
                         (message_or e "Failed to update user data. Please try again."))
            end
        end).
Proof.
  unfold updateUser, try_catch, bind, userData_value_id.
  destruct (userData s) as [u|]; [|reflexivity].
  by destruct (pb_update pb (u_id u) newData).
Qed.

Lemma deleteAccount_run rt pb s :
  deleteAccount rt pb s =
    (s, match userData s with
        | None =>
            Throw (new_Error
                     (message_or (new_TypeError (null_read_message rt "id"))
                        "Account deletion failed. Please try again."))
        | Some u =>
            match pb_delete pb (u_id u) with
            | Resolved _ => Normal tt
            | Rejected e =>
                Throw (new_Error
                         (message_or e "Account deletion failed. Please try again."))
            end
        end).
Proof.
  unfold deleteAccount, try_catch, bind, userData_value_id.
  destruct (userData s) as [u|]; [|reflexivity].
  by destruct (pb_delete pb (u_id u)) as [[]|].
Qed.

Lemma emailChange_run pb newEmail s :
  emailChange pb newEmail s =
    (s, match pb_requestEmailChange pb newEmail with
        | Resolved _ => Normal tt
        | Rejected e =>
            Throw (new_Error
                     (message_or e "Email change failed. Please try again."))
        end).
Proof.
  unfold emailChange, try_catch. by destruct (pb_requestEmailChange pb newEmail) as [[]|].
Qed.

(** X9: [updateUser], [emailChange], [deleteAccount] and
    [userDataHasEdited] never change what the stores hold, whether they
    succeed or fail: the held profile and the active theme stay as they
    are, and so does every key of [localStorage] other than the client's
    own ['pocketbase_auth']. *)
Theorem backend_only_operations_keep_stores rt pb s :
  (forall newData,
     userData (fst (updateUser rt pb newData s)) = userData s /\
     activeTheme (fst (updateUser rt pb newData s)) = activeTheme s /\
     forall key, key <> "pocketbase_auth" ->
       localStorage (fst (updateUser rt pb newData s)) !! key =
       localStorage s !! key) /\
  (forall newEmail,
     userData (fst (emailChange pb newEmail s)) = userData s /\
     activeTheme (fst (emailChange pb newEmail s)) = activeTheme s /\
     forall key, key <> "pocketbase_auth" ->
       localStorage (fst (emailChange pb newEmail s)) !! key =
       localStorage s !! key) /\
  (userData (fst (deleteAccount rt pb s)) = userData s /\
   activeTheme (fst (deleteAccount rt pb s)) = activeTheme s /\
   forall key, key <> "pocketbase_auth" ->
     localStorage (fst (deleteAccount rt pb s)) !! key = localStorage s !! key) /\
  (forall data,
     userData (fst (userDataHasEdited data s)) = userData s /\
     activeTheme (fst (userDataHasEdited data s)) = activeTheme s /\
     forall key, key <> "pocketbase_auth" ->
       localStorage (fst (userDataHasEdited data s)) !! key =
       localStorage s !! key).
Proof.
  split; [intros newData; by rewrite updateUser_run|].
  split; [intros newEmail; by rewrite emailChange_run|].
  split; [by rewrite deleteAccount_run|done].
Qed.

(** X10: a successful [deleteAccount] does not clear the held profile: the
    user store still holds it afterwards, and the active theme is the
    same. *)
Theorem deleteAccount_keeps_profile rt pb s u :
  userData s = Some u ->
  pb_delete pb (u_id u) = Resolved tt ->
  exists s',
    deleteAccount rt pb s = (s', Normal tt) /\
    userData s' = Some u /\
    activeTheme s' = activeTheme s.
Proof.
  intros Hu Hd. exists s. rewrite deleteAccount_run, Hu, Hd. done.
Qed.

Lemma deleteAccount_keeps_profile_witness :
  exists s',
    deleteAccount rt_utc pb_ann ann_logged_in = (s', Normal tt) /\
    userData s' = Some user_ann /\
    activeTheme s' = activeTheme ann_logged_in.
Proof.
  apply (deleteAccount_keeps_profile rt_utc pb_ann ann_logged_in user_ann);
    reflexivity.
Defined.

(** X11: a rejected remote call of [updateUser], [emailChange] or
    [deleteAccount] is raised again as an [Error] with the message of the
    rejection, or with the fixed text of the operation when there is none;
    [deleteAccount] without a held profile raises an [Error] with the
    engine's message about reading [id] of [null]. *)
Theorem rejections_surface rt pb s :
  (forall newData u e,
     userData s = Some u -> pb_update pb (u_id u) newData = Rejected e ->
     snd (updateUser rt pb newData s) =
       Throw (new_Error
                (message_or e "Failed to update user data. Please try again."))) /\
  (forall newEmail e,
     pb_requestEmailChange pb newEmail = Rejected e ->
     snd (emailChange pb newEmail s) =
       Throw (new_Error (message_or e "Email change failed. Please try again."))) /\
  (forall u e,
     userData s = Some u -> pb_delete pb (u_id u) = Rejected e ->
     snd (deleteAccount rt pb s) =
       Throw (new_Error
                (message_or e "Account deletion failed. Please try again."))) /\
  (userData s = None ->
     snd (deleteAccount rt pb s) =
       Throw (new_Error
                (or_else (Some (null_read_message rt "id"))
                   "Account deletion failed. Please try again."))).
Proof.
  split; [intros newData u e Hu Hr; by rewrite updateUser_run, Hu, Hr|].
  split; [intros newEmail e Hr; by rewrite emailChange_run, Hr|].
  split; [intros u e Hu Hr; by rewrite deleteAccount_run, Hu, Hr|].
  intros Hu. by rewrite deleteAccount_run, Hu.
Qed.

Lemma rejections_surface_witness :
  snd (updateUser rt_utc pb_silent (UpdateUser user_ann) ann_logged_in) =
    Throw (new_Error "Failed to update user data. Please try again.") /\
  snd (emailChange pb_offline "ann@x.com" ann_logged_in) =
    Throw (new_Error "Failed to fetch") /\
  snd (deleteAccount rt_utc pb_silent ann_logged_in) =
    Throw (new_Error "Account deletion failed. Please try again.") /\
  snd (deleteAccount rt_utc pb_ann first_visit) =
    Throw (new_Error "Cannot read properties of null (reading 'id')").
Proof.
  destruct (rejections_surface rt_utc pb_silent ann_logged_in) as (Hu & _ & Hd & _).
  destruct (rejections_surface rt_utc pb_offline ann_logged_in) as (_ & He & _).
  destruct (rejections_surface rt_utc pb_ann first_visit) as (_ & _ & _ & Hn).
  split; [apply (Hu (UpdateUser user_ann) user_ann silent); reflexivity|].
  split; [apply (He "ann@x.com" offline); reflexivity|].
  split; [apply (Hd user_ann silent); reflexivity|].
  apply Hn. reflexivity.
Defined.

(** X12: whatever [updateUser], [login], [loginWithGoogle],
    [createAccount], [emailChange] or [deleteAccount] throw is a plain
    [Error] with a message that is not empty. *)
Theorem errors_are_normalized rt pb s e :
  (forall newData, snd (updateUser rt pb newData s) = Throw e -> normalized e) /\
  (forall email password,
     snd (login rt pb email password s) = Throw e -> normalized e) /\
  (snd (loginWithGoogle rt pb s) = Throw e -> normalized e) /\
  (forall newUser, snd (createAccount rt pb newUser s) = Throw e -> normalized e) /\
  (forall newEmail, snd (emailChange pb newEmail s) = Throw e -> normalized e) /\
  (snd (deleteAccount rt pb s) = Throw e -> normalized e).
Proof.
  assert (Hcatch : forall A (body : M A) fallback,
            fallback <> "" ->
            snd (try_catch body (fun error =>
                   throw (new_Error (message_or error fallback))) s) = Throw e ->
            normalized e).
  { intros A body fallback Hf. unfold try_catch.
    destruct (body s) as [s' [a|e']]; simpl; [discriminate|].
    intros [= <-]. by apply rethrown_normalized. }
  repeat split; intros; eapply Hcatch; try eassumption; done.
Qed.

(** ** What the operations outside the theme store leave alone *)

Section Frame.

(** A property of the state that does not look at the heap, at
    [pb.authStore], at the ['pocketbase_auth'] key or at the held
    profile. *)
Variable I : State -> Prop.
Hypothesis I_heap : forall h s, I s -> I (set_heap h s).
Hypothesis I_auth : forall a s, I s -> I (set_authStore a s).
Hypothesis I_drop :
  forall s, I s -> I (set_localStorage (delete "pocketbase_auth" (localStorage s)) s).
Hypothesis I_store :
  forall v s,
    I s -> I (set_localStorage (<["pocketbase_auth" := v]> (localStorage s)) s).
Hypothesis I_user : forall u s, I s -> I (set_userData u s).

Lemma frame_auth_call pb o : keeps I (auth_call pb o) (fun _ => True).
Proof.
  destruct o as [resp|e]; intros s Hs.
  - rewrite auth_call_resolved. split; [|done]. cbn [fst].
    apply (I_store _ (set_authStore _ (set_heap _ s))). by apply I_auth, I_heap.
  - split; [done|discriminate].
Qed.

Lemma frame_mapAuthDataToUser rt pb authData :
  keeps I (mapAuthDataToUser rt pb authData) (fun _ => True).
Proof.
  intros s Hs. destruct (heap s !! ad_record authData) as [r|] eqn:E.
  - rewrite (mapAuthDataToUser_run _ _ _ _ _ E). simpl. split; [|done].
    unfold mapped_state. destruct (String.eqb _ _); [|done]. by apply I_heap.
  - rewrite (mapAuthDataToUser_null _ _ _ _ E). simpl. split; [done|discriminate].
Qed.

Lemma frame_saveUserData u : keeps I (saveUserData u) (fun _ => True).
Proof. apply keeps_modify. intros s Hs. by apply I_user. Qed.

Lemma frame_sign_out :
  keeps I
    (bind authStore_clear (fun _ =>
       bind (localStorage_removeItem "pocketbase_auth") (fun _ => clearUser)))
    (fun _ => True).
Proof.
  eapply keeps_bind; [apply keeps_modify; intros s Hs; by apply I_auth|]. intros _ _.
  eapply keeps_bind; [apply keeps_modify; intros s Hs; by apply I_drop|]. intros _ _.
  apply keeps_modify. intros s Hs. by apply I_user.
Qed.

Lemma frame_sign_in rt pb o :
  keeps I
    (bind (auth_call pb o) (fun authData =>
       bind (mapAuthDataToUser rt pb authData) (fun user =>
         bind (saveUserData user) (fun _ => ret authData))))
    (fun _ => True).
Proof.
  eapply keeps_bind; [apply frame_auth_call|]. intros authData _.
  eapply keeps_bind; [apply frame_mapAuthDataToUser|]. intros u _.
  eapply keeps_bind; [apply frame_saveUserData|]. intros _ _.
  by apply keeps_ret.
Qed.

Lemma frame_login rt pb email password :
  keeps I (login rt pb email password) (fun _ => True).
Proof.
  eapply (keeps_try_catch _ _ _ (fun _ => True));
    [apply frame_sign_in|done|]. intros e. apply keeps_throw.
Qed.

Lemma frame_exec rt pb op s :
  is_theme_op op = false -> I s -> I (exec rt pb op s).
Proof.
  intros Hop Hs. destruct op; try discriminate Hop; cbn [exec].
  - by apply (keeps_state I _ (fun _ => True) s Hs), frame_login.
  - apply (keeps_state I _ (fun _ => True) s Hs).
    eapply (keeps_try_catch _ _ _ (fun _ => True));
      [apply frame_sign_in|done|]. intros e. apply keeps_throw.
  - apply (keeps_state I _ (fun _ => True) s Hs).
    eapply (keeps_try_catch _ _ _ (fun _ => True));
      [|done|intros e; apply keeps_throw].
    eapply keeps_bind; [apply keeps_await|]. intros _ _.
    eapply keeps_bind; [apply frame_login|]. intros authData _.
    eapply keeps_bind; [apply frame_mapAuthDataToUser|]. intros u _.
    eapply keeps_bind; [apply frame_saveUserData|]. intros _ _.
    by apply keeps_ret.
  - by apply (keeps_state I _ (fun _ => True) s Hs), frame_sign_out.
  - apply (keeps_state I _ (fun _ => True) s Hs).
    eapply (keeps_try_catch _ _ _ (fun _ => True));
      [|done|intros e; apply frame_sign_out].
    eapply keeps_bind; [apply keeps_gets|]. intros valid _.
    destruct (negb valid); [apply frame_sign_out|].
    eapply keeps_bind; [apply frame_auth_call|]. intros authData _.
    eapply keeps_bind; [apply frame_mapAuthDataToUser|]. intros u _.
    apply frame_saveUserData.
  - by rewrite emailChange_run.
  - by rewrite deleteAccount_run.
  - by apply I_user.
  - by apply I_user.
  - by rewrite updateUser_run.
  - done.
Qed.

End Frame.

(** X13: the active theme is changed by [setTheme] and [changeTheme]
    only; no operation of the user store or of the authentication store
    changes it, not even a login of a user with another theme. *)
Theorem only_theme_store_changes_theme rt pb op s :
  is_theme_op op = false ->
  activeTheme (exec rt pb op s) = activeTheme s.
Proof.
  intros Hop.
  by apply (frame_exec (fun s' => activeTheme s' = activeTheme s)).
Qed.

Lemma only_theme_store_changes_theme_witness :
  activeTheme (exec rt_utc pb_bob (OpLogin "b@x.com" "pw") first_visit) = "forest".
Proof.
  apply (only_theme_store_changes_theme rt_utc pb_bob (OpLogin "b@x.com" "pw")
           first_visit).
  reflexivity.
Defined.

(** X14: the operations write to [localStorage] in two places only:
    [setTheme] writes the ['theme'] key, and signing out removes the
    ['pocketbase_auth'] key. Every other key, and the ['theme'] key under
    every operation but [setTheme], keeps its value. *)
Theorem storage_writes_are_confined rt pb op s key :
  key <> "pocketbase_auth" ->
  op <> OpSetTheme \/ key <> "theme" ->
  localStorage (exec rt pb op s) !! key = localStorage s !! key.
Proof.
  intros Hk Hop. destruct (is_theme_op op) eqn:E.
  - destruct op; try discriminate E.
    + destruct Hop as [Hop|Hop]; [done|].
      unfold exec, setTheme, bind, gets, modify,
        localStorage_getItem, localStorage_setItem.
      destruct (userData s); simpl; by rewrite lookup_insert_ne.
    + reflexivity.
  - apply (frame_exec (fun s' => localStorage s' !! key = localStorage s !! key));
      try done.
    + intros s' Hs'. simpl. rewrite lookup_delete_ne; [done|congruence].
    + intros v s' Hs'. simpl. rewrite lookup_insert_ne; [done|congruence].
Qed.

Lemma storage_writes_are_confined_witness :
  localStorage (exec rt_utc pb_ann OpLogout winter_visit) !! "theme" = Some "winter" /\
  localStorage (exec rt_utc pb_ann OpChangeTheme winter_visit) !! "theme" =
    Some "winter".
Proof.
  split.
  - apply (storage_writes_are_confined rt_utc pb_ann OpLogout winter_visit "theme");
      [done|by left].
  - apply (storage_writes_are_confined rt_utc pb_ann OpChangeTheme winter_visit
             "theme"); [done|by left].
Defined.

(** ** The held profile after a sign-in *)

Lemma loginWithGoogle_resolved rt pb resp s :
  pb_authWithOAuth2 pb "google" = Resolved resp ->
  loginWithGoogle rt pb s =
    (signed_in rt pb resp s,
     Normal {| ad_token := resp_token resp; ad_record := fresh (dom (heap s)) |}).
Proof. intros H. unfold loginWithGoogle, try_catch. by rewrite H, sign_in_run. Qed.

Lemma loginWithGoogle_rejected rt pb e s :
  pb_authWithOAuth2 pb "google" = Rejected e ->
  loginWithGoogle rt pb s =
    (s, Throw (new_Error (message_or e "Google login failed. Please try again."))).
Proof. intros H. unfold loginWithGoogle, try_catch. by rewrite H, sign_in_rejected. Qed.

Lemma createAccount_cases rt pb newUser s :
  (exists e, createAccount rt pb newUser s = (s, Throw e)) \/
  (exists s' authData u,
     createAccount rt pb newUser s = (s', Normal authData) /\
     userData s' = Some u /\ transient_empty u).
Proof.
  destruct (pb_create pb {| c_email := n_email newUser;
                            c_emailVisibility := false;
                            c_name := n_name newUser;
                            c_themeMode := n_themeMode newUser;
                            c_password := n_password newUser;
                            c_passwordConfirm := n_passwordConfirm newUser |})
    as [[]|e] eqn:Hc.
  - destruct (pb_authWithPassword pb (n_email newUser) (n_password newUser))
      as [resp|e] eqn:Ho.
    + right. do 3 eexists.
      unfold createAccount, try_catch, bind at 1. rewrite Hc. cbn [await ret].
      unfold bind at 1. rewrite (login_resolved _ _ _ _ _ _ Ho). unfold bind at 1.
      rewrite (mapAuthDataToUser_run rt pb
                 {| ad_token := resp_token resp;
                    ad_record := fresh (dom (heap s)) |}
                 _ _ (signed_in_lookup rt pb resp s)).
      split; [reflexivity|]. split; [reflexivity|done].
    + left. eexists.
      unfold createAccount, try_catch, bind at 1. rewrite Hc. cbn [await ret].
      unfold bind at 1. rewrite (login_rejected _ _ _ _ _ _ Ho). reflexivity.
  - left. eexists.
    unfold createAccount, try_catch, bind at 1. rewrite Hc. reflexivity.
Qed.

Lemma createAccount_normal rt pb newUser s authData :
  snd (createAccount rt pb newUser s) = Normal authData ->
  exists u, userData (fst (createAccount rt pb newUser s)) = Some u /\
            transient_empty u.
Proof.
  destruct (createAccount_cases rt pb newUser s)
    as [[e ->] | (s' & authData' & u & -> & Hu & Hc)]; [discriminate|].
  intros _. by exists u.
Qed.

(** X15: a sign-in that succeeds ([login], [loginWithGoogle],
    [createAccount]) leaves a held profile with empty password fields and
    no pending avatar file, whatever was held before; and so does
    [authRefresh] whenever it leaves a profile at all. *)
Theorem sign_in_profile_has_no_form_data rt pb s :
  (forall email password authData,
     snd (login rt pb email password s) = Normal authData ->
     exists u, userData (fst (login rt pb email password s)) = Some u /\
               transient_empty u) /\
  (forall authData,
     snd (loginWithGoogle rt pb s) = Normal authData ->
     exists u, userData (fst (loginWithGoogle rt pb s)) = Some u /\
               transient_empty u) /\
  (forall newUser authData,
     snd (createAccount rt pb newUser s) = Normal authData ->
     exists u, userData (fst (createAccount rt pb newUser s)) = Some u /\
               transient_empty u) /\
  (forall u, userData (fst (authRefresh rt pb s)) = Some u -> transient_empty u).
Proof.
  split; [|split; [|split]].
  - intros email password authData.
    destruct (pb_authWithPassword pb email password) as [resp|e] eqn:Ho.
    + rewrite (login_resolved _ _ _ _ _ _ Ho). intros _.
      eexists. split; [apply signed_in_userData|done].
    + rewrite (login_rejected _ _ _ _ _ _ Ho). discriminate.
  - intros authData.
    destruct (pb_authWithOAuth2 pb "google") as [resp|e] eqn:Ho.
    + rewrite (loginWithGoogle_resolved _ _ _ _ Ho). intros _.
      eexists. split; [apply signed_in_userData|done].
    + rewrite (loginWithGoogle_rejected _ _ _ _ Ho). discriminate.
  - intros newUser authData. apply createAccount_normal.
  - intros u. destruct (isValid (authStore s)) eqn:Hv.
    + destruct (pb_authRefresh pb) as [resp|e] eqn:Ho.
      * rewrite (authRefresh_resolved rt pb resp s Hv Ho).
        cbn [fst]. rewrite signed_in_userData. by intros [= <-].
      * rewrite (authRefresh_failed rt pb s) by (right; by exists e). discriminate.
    + rewrite (authRefresh_failed rt pb s) by by left. discriminate.
Qed.

Lemma sign_in_profile_has_no_form_data_witness :
  (exists h, userData ann_with_cat = Some h /\ u_avatarFile h = Some file_cat) /\
  exists u,
    userData (fst (login rt_utc pb_bob "b@x.com" "pw" ann_with_cat)) = Some u /\
    transient_empty u.
Proof.
  split; [by eexists|].
  apply (proj1 (sign_in_profile_has_no_form_data rt_utc pb_bob ann_with_cat)
           "b@x.com" "pw" {| ad_token := "tok2"; ad_record := 1%nat |}).
  reflexivity.
Defined.

Lemma strict_not_equal_false a b : strict_not_equal a b = false -> a = b.
Proof.
  destruct a as [x|], b as [y|]; simpl; try done.
  intros E. apply negb_false_iff, String.eqb_eq in E. by subst.
Qed.

Lemma userDataHasEdited_run data s :
  userDataHasEdited data s =
    (s, Normal (strict_not_equal (JSON_stringify data)
                  (JSON_stringify (userData_value s)))).
Proof. reflexivity. Qed.

Lemma userDataHasEdited_false u s :
  snd (userDataHasEdited (UserType_to_value u) s) = Normal false ->
  exists h, userData s = Some h /\ same_serialized_fields u h.
Proof.
  rewrite userDataHasEdited_run. cbn [snd]. intros E.
  assert (E' : strict_not_equal (JSON_stringify (UserType_to_value u))
                 (JSON_stringify (userData_value s)) = false) by congruence.
  apply strict_not_equal_false in E'. clear E. rename E' into E.
  unfold userData_value in E. destruct (userData s) as [h|].
  - exists h. split; [done|]. by apply stringify_user_inj.
  - by apply stringify_user_not_null in E.
Qed.

(** X16: when no profile is held, or the held profile has no pending
    avatar file (as after every sign-in), [userDataHasEdited] reports a
    candidate with a pending avatar file as changed. *)
Theorem picked_file_is_a_change s u f :
  (forall h, userData s = Some h -> u_avatarFile h = None) ->
  u_avatarFile u = Some f ->
  userDataHasEdited (UserType_to_value u) s = (s, Normal true).
Proof.
  intros Hs Hf.
  destruct (userDataHasEdited (UserType_to_value u) s) as [s' [[|]|e]] eqn:E;
    try (by inversion E).
  exfalso.
  destruct (userDataHasEdited_false u s) as (h & Hh & Hsame); [by rewrite E|].
  pose proof (Hs h Hh) as Hnone.
  destruct Hsame as (_ & _ & _ & _ & _ & _ & _ & _ & _ & _ & Hiff).
  apply Hiff in Hnone. congruence.
Qed.

Lemma picked_file_is_a_change_witness :
  userDataHasEdited (UserType_to_value (with_avatarFile (Some file_cat) user_ann))
    ann_logged_in = (ann_logged_in, Normal true).
Proof.
  apply (picked_file_is_a_change ann_logged_in
           (with_avatarFile (Some file_cat) user_ann) file_cat).
  - by intros h [= <-].
  - reflexivity.
Defined.

(** ** The theme store, further *)

Lemma setTheme_run s :
  setTheme s =
    (let theme := match userData s with
                  | Some u => u_themeMode u
                  | None => or_else (localStorage s !! "theme") "forest"
                  end in
     (set_localStorage (<["theme" := theme]> (localStorage s))
        (set_activeTheme theme s), Normal tt)).
Proof.
  unfold setTheme, bind, gets, modify, localStorage_getItem, localStorage_setItem.
  by destruct (userData s).
Qed.

Lemma or_else_fixed a b : b <> "" -> or_else (Some (or_else a b)) b = or_else a b.
Proof.
  intros Hb. unfold or_else at 1.
  destruct (truthy (or_else a b)) eqn:E; [done|].
  apply not_true_iff_false in E. exfalso. apply E, truthy_nonempty.
  by apply or_else_truthy.
Qed.

(** X17: [setTheme] takes the theme of the held profile if there is one,
    whatever [localStorage] says; otherwise the stored ['theme'] value if
    it is not empty; and ['forest'] if the stored value is the empty
    string. *)
Theorem setTheme_priority s :
  (forall u, userData s = Some u ->
     activeTheme (fst (setTheme s)) = u_themeMode u) /\
  (forall stored, userData s = None -> localStorage s !! "theme" = Some stored ->
     stored <> "" -> activeTheme (fst (setTheme s)) = stored) /\
  (userData s = None -> localStorage s !! "theme" = Some "" ->
     activeTheme (fst (setTheme s)) = "forest").
Proof.
  rewrite setTheme_run. cbn [fst activeTheme set_localStorage set_activeTheme].
  split; [by intros u ->|]. split.
  - intros stored -> -> Hs. simpl. by destruct stored.
  - by intros -> ->.
Qed.

Lemma setTheme_priority_witness :
  activeTheme (fst (setTheme winter_visit)) = "winter" /\
  activeTheme (fst (setTheme (fst (saveUserData user_ann winter_visit)))) = "forest".
Proof.
  split.
  - apply (proj1 (proj2 (setTheme_priority winter_visit)) "winter"); done.
  - apply (proj1 (setTheme_priority (fst (saveUserData user_ann winter_visit)))
             user_ann). reflexivity.
Defined.

(** X18: calling [setTheme] a second time changes nothing. *)
Theorem setTheme_idempotent s :
  setTheme (fst (setTheme s)) = setTheme s.
Proof.
  rewrite !setTheme_run. cbn [fst userData set_localStorage set_activeTheme
                                activeTheme localStorage].
  destruct (userData s) as [u|].
  - by rewrite insert_insert_eq.
  - rewrite lookup_insert_eq, or_else_fixed by done. by rewrite insert_insert_eq.
Qed.

Lemma changeTheme_run s :
  changeTheme s =
    (set_activeTheme
       (if String.eqb (activeTheme s) "forest" then "winter" else "forest") s,
     Normal tt).
Proof. reflexivity. Qed.

(** X19: after [changeTheme] the active theme is one of the two known
    names, whatever it was before; a theme other than ['forest'] (an unknown
    name from a profile or from [localStorage] included) becomes
    ['forest']; and three calls amount to one. *)
Theorem changeTheme_reaches_known_themes s :
  (activeTheme (fst (changeTheme s)) = "forest" \/
   activeTheme (fst (changeTheme s)) = "winter") /\
  (activeTheme s <> "forest" -> activeTheme (fst (changeTheme s)) = "forest") /\
  fst (changeTheme (fst (changeTheme (fst (changeTheme s))))) = fst (changeTheme s).
Proof.
  rewrite !changeTheme_run. cbn [fst activeTheme set_activeTheme].
  destruct (String.eqb (activeTheme s) "forest") eqn:E.
  - split; [by right|]. split; [|done].
    intros H. by apply String.eqb_eq in E.
  - split; [by left|]. split; done.
Qed.

(** X20: [setTheme] right after a successful [login] makes the active
    theme the one stored in the record of the user, or keeps the theme that
    was active before the login when the record has none, and stores it
    under ['theme']. *)
Theorem setTheme_after_login rt pb email password resp s :
  pb_authWithPassword pb email password = Resolved resp ->
  let s' := fst (setTheme (fst (login rt pb email password s))) in
  activeTheme s' =
    (if String.eqb (r_themeMode (resp_record resp)) ""
     then activeTheme s else r_themeMode (resp_record resp)) /\
  localStorage s' !! "theme" = Some (activeTheme s').
Proof.
  intros H. rewrite (login_resolved _ _ _ _ _ _ H). cbn [fst].
  rewrite setTheme_run, signed_in_userData. cbn [fst].
  split; [reflexivity|]. simpl. by rewrite lookup_insert_eq.
Qed.

Lemma setTheme_after_login_witness :
  let s' := fst (setTheme (fst (login rt_utc pb_bob "b@x.com" "pw" first_visit))) in
  activeTheme s' = "winter" /\
  localStorage s' !! "theme" = Some (activeTheme s').
Proof.
  apply (setTheme_after_login rt_utc pb_bob "b@x.com" "pw" response_bob first_visit).
  reflexivity.
Defined.

(** ** Normalization *)

Lemma mapped_state_frame l r s :
  userData (mapped_state l r s) = userData s /\
  activeTheme (mapped_state l r s) = activeTheme s /\
  localStorage (mapped_state l r s) = localStorage s /\
  authStore (mapped_state l r s) = authStore s.
Proof. unfold mapped_state. by destruct (String.eqb _ _). Qed.

(** X21: [mapAuthDataToUser] changes nothing but the record object it is
    given: the held profile, the active theme, [localStorage],
    [pb.authStore] and every other record object stay as they are. A record
    with a theme of its own is not written to at all, and normalizing the
    same record a second time leaves the state as the first time left
    it. *)
Theorem mapAuthDataToUser_touches_one_record rt pb authData s r :
  heap s !! ad_record authData = Some r ->
  let s' := fst (mapAuthDataToUser rt pb authData s) in
  userData s' = userData s /\
  activeTheme s' = activeTheme s /\
  localStorage s' = localStorage s /\
  authStore s' = authStore s /\
  (forall l, l <> ad_record authData -> heap s' !! l = heap s !! l) /\
  (r_themeMode r <> "" -> s' = s) /\
  fst (mapAuthDataToUser rt pb authData s') = s'.
Proof.
  intros Hr. rewrite (mapAuthDataToUser_run _ _ _ _ _ Hr). cbn [fst].
  destruct (mapped_state_frame (ad_record authData) r s) as (Hu & Ht & Hl & Ha).
  repeat (split; [done|]).
  unfold mapped_state. destruct (String.eqb (r_themeMode r) "") eqn:E.
  - split; [intros l Hne; simpl; rewrite lookup_insert_ne; [done|congruence]|].
    split; [intros Hne; by apply String.eqb_eq in E|].
    set (s1 := set_heap _ s).
    assert (H1 : heap s1 !! ad_record authData =
                 Some (with_themeMode (activeTheme s) r)).
    { apply lookup_insert_eq. }
    rewrite (mapAuthDataToUser_run _ _ _ _ _ H1). cbn [fst].
    unfold mapped_state. simpl.
    destruct (String.eqb (activeTheme s) ""); [|done].
    unfold s1. simpl. by rewrite insert_insert_eq.
  - split; [done|]. split; [done|].
    rewrite (mapAuthDataToUser_run _ _ _ _ _ Hr). cbn [fst].
    unfold mapped_state. by rewrite E.
Qed.

Lemma mapAuthDataToUser_touches_one_record_witness :
  let s' := fst (mapAuthDataToUser rt_utc pb_ann ann_authData ann_received) in
  userData s' = userData ann_received /\
  activeTheme s' = activeTheme ann_received /\
  localStorage s' = localStorage ann_received /\
  authStore s' = authStore ann_received /\
  (forall l, l <> ad_record ann_authData -> heap s' !! l = heap ann_received !! l) /\
  (r_themeMode record_ann <> "" -> s' = ann_received) /\
  fst (mapAuthDataToUser rt_utc pb_ann ann_authData s') = s'.
Proof.
  apply (mapAuthDataToUser_touches_one_record rt_utc pb_ann ann_authData
           ann_received record_ann).
  reflexivity.
Defined.

(** X22: a creation date of which the engine makes an invalid [Date] (the
    string is in none of the forms of the date-time format and the engine
    does not read it by rules of its own either) is not an error:
    [mapAuthDataToUser] still returns a profile, whose [created] is the
    text 'NaN-NaN-NaN'. *)
Theorem mapAuthDataToUser_invalid_date rt pb authData s r :
  heap s !! ad_record authData = Some r ->
  new_Date rt (r_created r) = None ->
  exists s' u,
    mapAuthDataToUser rt pb authData s = (s', Normal u) /\
    u_created u = "NaN-NaN-NaN".
Proof.
  intros Hr Hd. rewrite (mapAuthDataToUser_run _ _ _ _ _ Hr).
  do 2 eexists. split; [reflexivity|].
  simpl. unfold created_text. by rewrite Hd.
Qed.

Lemma mapAuthDataToUser_invalid_date_witness :
  exists s' u,
    mapAuthDataToUser rt_new_york pb_ann {| ad_token := "tok3"; ad_record := 0%nat |}
      undated_received = (s', Normal u) /\
    u_created u = "NaN-NaN-NaN".
Proof.
  apply (mapAuthDataToUser_invalid_date rt_new_york pb_ann
           {| ad_token := "tok3"; ad_record := 0%nat |} undated_received
           record_undated); reflexivity.
Defined.

(** X23: the avatar of the profile is the empty string for a record
    without avatar, and otherwise the URL the client builds for the record,
    the file name and the thumbnail size '100x250'. *)
Theorem mapAuthDataToUser_avatar rt pb authData s r :
  heap s !! ad_record authData = Some r ->
  exists s' u,
    mapAuthDataToUser rt pb authData s = (s', Normal u) /\
    (r_avatar r = "" -> u_avatar u = "") /\
    (r_avatar r <> "" ->
       u_avatar u = pb_files_getURL pb r (r_avatar r) "100x250").
Proof.
  intros Hr. rewrite (mapAuthDataToUser_run _ _ _ _ _ Hr).
  do 2 eexists. split; [reflexivity|]. simpl.
  destruct (r_avatar r); simpl; split; done.
Qed.

Lemma mapAuthDataToUser_avatar_witness :
  exists s' u,
    mapAuthDataToUser rt_utc pb_bob {| ad_token := "tok2"; ad_record := 0%nat |}
      (fst (auth_call pb_bob (Resolved response_bob) first_visit)) = (s', Normal u) /\
    (r_avatar record_bob = "" -> u_avatar u = "") /\
    (r_avatar record_bob <> "" ->
       u_avatar u = "/api/files/users/u2/bob.png?thumb=100x250").
Proof.
  apply (mapAuthDataToUser_avatar rt_utc pb_bob
           {| ad_token := "tok2"; ad_record := 0%nat |}
           (fst (auth_call pb_bob (Resolved response_bob) first_visit)) record_bob).
  reflexivity.
Defined.

(** ** Record objects handed out earlier *)

Section Records.
Variable l : ref.
Variable r : RawRecord.

Lemma holds_auth_call pb o : keeps (holds l r) (auth_call pb o) (other l).
Proof.
  destruct o as [resp|e]; intros s Hs.
  - rewrite auth_call_resolved. cbn [fst snd].
    assert (Hne : fresh (dom (heap s)) <> l).
    { intros Hl. apply (is_fresh (dom (heap s))). rewrite Hl.
      apply (elem_of_dom_2 _ _ _ Hs). }
    split.
    + unfold holds. simpl. by rewrite lookup_insert_ne.
    + by intros a [= <-].
  - split; [done|discriminate].
Qed.

Lemma holds_mapAuthDataToUser rt pb authData :
  other l authData ->
  keeps (holds l r) (mapAuthDataToUser rt pb authData) (fun _ => True).
Proof.
  intros Hne s Hs. destruct (heap s !! ad_record authData) as [r'|] eqn:E.
  - rewrite (mapAuthDataToUser_run _ _ _ _ _ E). split; [|done]. cbn [fst].
    unfold mapped_state, holds. destruct (String.eqb _ _); [|done].
    simpl. by rewrite lookup_insert_ne.
  - rewrite (mapAuthDataToUser_null _ _ _ _ E). split; [done|discriminate].
Qed.

Lemma holds_sign_in rt pb o :
  keeps (holds l r)
    (bind (auth_call pb o) (fun authData =>
       bind (mapAuthDataToUser rt pb authData) (fun user =>
         bind (saveUserData user) (fun _ => ret authData))))
    (other l).
Proof.
  eapply keeps_bind; [apply holds_auth_call|]. intros authData Hne.
  eapply keeps_bind; [by apply holds_mapAuthDataToUser|]. intros u _.
  eapply keeps_bind; [apply keeps_modify; by intros s Hs|]. intros _ _.
  by apply keeps_ret.
Qed.

Lemma holds_sign_out :
  keeps (holds l r)
    (bind authStore_clear (fun _ =>
       bind (localStorage_removeItem "pocketbase_auth") (fun _ => clearUser)))
    (fun _ => True).
Proof.
  eapply keeps_bind; [apply keeps_modify; by intros s Hs|]. intros _ _.
  eapply keeps_bind; [apply keeps_modify; by intros s Hs|]. intros _ _.
  apply keeps_modify. by intros s Hs.
Qed.

Lemma holds_login rt pb email password :
  keeps (holds l r) (login rt pb email password) (other l).
Proof.
  eapply (keeps_try_catch _ _ _ (other l));
    [apply holds_sign_in|done|]. intros e. apply keeps_throw.
Qed.

Lemma holds_exec rt pb op s : holds l r s -> holds l r (exec rt pb op s).
Proof.
  intros Hs. destruct op; cbn [exec].
  - by apply (keeps_state (holds l r) _ (other l) s Hs), holds_login.
  - apply (keeps_state (holds l r) _ (other l) s Hs).
    eapply (keeps_try_catch _ _ _ (other l));
      [apply holds_sign_in|done|]. intros e. apply keeps_throw.
  - apply (keeps_state (holds l r) _ (other l) s Hs).
    eapply (keeps_try_catch _ _ _ (other l)); [|done|intros e; apply keeps_throw].
    eapply keeps_bind; [apply keeps_await|]. intros _ _.
    eapply keeps_bind; [apply holds_login|]. intros authData Hne.
    eapply keeps_bind; [by apply holds_mapAuthDataToUser|]. intros u _.
    eapply keeps_bind; [apply keeps_modify; by intros s' Hs'|]. intros _ _.
    by apply keeps_ret.
  - by apply (keeps_state (holds l r) _ (fun _ => True) s Hs), holds_sign_out.
  - apply (keeps_state (holds l r) _ (fun _ => True) s Hs).
    eapply (keeps_try_catch _ _ _ (fun _ => True));
      [|done|intros e; apply holds_sign_out].
    eapply keeps_bind; [apply keeps_gets|]. intros valid _.
    destruct (negb valid); [apply holds_sign_out|].
    eapply keeps_bind; [apply holds_auth_call|]. intros authData Hne.
    eapply keeps_bind; [by apply holds_mapAuthDataToUser|]. intros u _.
    apply keeps_modify. by intros s' Hs'.
  - by rewrite emailChange_run.
  - by rewrite deleteAccount_run.
  - done.
  - done.
  - by rewrite updateUser_run.
  - done.
  - by rewrite setTheme_run.
  - done.
Qed.

End Records.

(** X24: no operation of the stores changes or drops a record object
    that the client handed over earlier: a login writes to the record it
    has just received and to no other. *)
Theorem earlier_records_are_kept rt pb op s l r :
  heap s !! l = Some r ->
  heap (exec rt pb op s) !! l = Some r.
Proof. apply holds_exec. Qed.

Lemma earlier_records_are_kept_witness :
  heap (exec rt_utc pb_bob (OpLogin "b@x.com" "pw") ann_logged_in) !! 0%nat =
    Some (with_themeMode "forest" record_ann).
Proof.
  apply (earlier_records_are_kept rt_utc pb_bob (OpLogin "b@x.com" "pw")
           ann_logged_in 0%nat (with_themeMode "forest" record_ann)).
  reflexivity.
Defined.
